(** * A shallow embedding of the Jira command-line client (src/index.js)

    The client is one JavaScript module: three global variables (the
    credential session), a few pure helpers, the request wrapper
    [makeJiraRequest] with the API operations built on it, and the
    prompt-driven flows of the terminal menus.

    Modelling choices, shared by the whole development:

    - A JavaScript string is a [string]; each character stands for one
      UTF-16 code unit in the range 0..255, so that [trim], [toLowerCase],
      [parseInt] and [encodeURIComponent] are the ECMAScript functions
      restricted to such strings.
    - An argument that a caller may leave out is an [option string]; [None]
      is [undefined].
    - The three globals live in a [Session] record inside the [World] that
      every asynchronous function threads; the world also records every
      configuration handed to [axios] and the number of lines read from
      the terminal.
    - [axios], the terminal and the environment file are the external
      collaborators.  They are Section variables: [axios] answers from the
      requests made so far and the current one, [answers k] is the [k]-th
      line the user types.
    - A response body is a [JiraData]: the project array, a search result
      with its [issues], some other object, or nothing.  Reading a
      property off a body of another shape gives [undefined] or throws a
      TypeError, as it does in JavaScript.
    - An asynchronous function is a computation [M A]: it returns a value
      or throws, and yields the next world.  What the program writes to
      the terminal ([console.log] and the prompt of a question) is never
      read back and is left out. *)

From Stdlib Require Import String Ascii List ZArith NArith Bool Lia.
From Stdlib Require Import DecimalString DecimalNat.
Import ListNotations.

Local Open Scope list_scope.
Local Open Scope string_scope.

(* ================================================================== *)
(** ** The JavaScript built-ins the client calls *)

Module JS.

Definition code (c : ascii) : N := N_of_ascii c.

(** WhiteSpace and LineTerminator code units below 256: TAB, LF, VT, FF,
    CR, SP and NBSP. *)
Definition is_space (c : ascii) : bool :=
  let n := code c in
  ((9 <=? n) && (n <=? 13) || (n =? 32) || (n =? 160))%N.

Fixpoint trimStart (s : string) : string :=
  match s with
  | "" => ""
  | String c s' => if is_space c then trimStart s' else s
  end.

Fixpoint trimEnd (s : string) : string :=
  match s with
  | "" => ""
  | String c s' =>
      match trimEnd s' with
      | "" => if is_space c then "" else String c ""
      | r => String c r
      end
  end.

Definition trim (s : string) : string := trimEnd (trimStart s).

(** [s.includes(c)] for a one-character search string. *)
Fixpoint includes (c : ascii) (s : string) : bool :=
  match s with
  | "" => false
  | String d s' => Ascii.eqb d c || includes c s'
  end.

(** [s.split(c)] for a one-character separator. *)
Fixpoint split (c : ascii) (s : string) : list string :=
  match s with
  | "" => [""]
  | String d s' =>
      if Ascii.eqb d c then "" :: split c s'
      else match split c s' with
           | p :: ps => String d p :: ps
           | [] => [String d ""]
           end
  end.

Definition lower_char (c : ascii) : ascii :=
  let n := code c in
  if ((65 <=? n) && (n <=? 90) || (192 <=? n) && (n <=? 214)
      || (216 <=? n) && (n <=? 222))%N
  then ascii_of_N (n + 32) else c.

Fixpoint toLowerCase (s : string) : string :=
  match s with
  | "" => ""
  | String c s' => String (lower_char c) (toLowerCase s')
  end.

(** The value of [c] as a digit of the given radix, if it is one. *)
Definition digit_of (radix : Z) (c : ascii) : option Z :=
  let n := Z.of_N (code c) in
  let v := (if (48 <=? n) && (n <=? 57) then Some (n - 48)
            else if (97 <=? n) && (n <=? 122) then Some (n - 87)
            else if (65 <=? n) && (n <=? 90) then Some (n - 55)
            else None)%Z in
  match v with
  | Some d => if (d <? radix)%Z then Some d else None
  | None => None
  end.

(** The longest prefix of radix digits, read as a number; [acc] is [None]
    until a digit has been seen. *)
Fixpoint parse_digits (radix : Z) (acc : option Z) (s : string) : option Z :=
  match s with
  | "" => acc
  | String c s' =>
      match digit_of radix c with
      | Some d =>
          parse_digits radix
            (Some (match acc with Some a => a * radix + d | None => d end)%Z) s'
      | None => acc
      end
  end.

(** [parseInt(s)] with the radix left out; [None] is NaN.  The result is
    the exact integer: a double agrees with it below 2^53, and above that
    both lie beyond every array length. *)
Definition parseInt (s : string) : option Z :=
  let s1 := trimStart s in
  let '(sign, s2) :=
    match s1 with
    | String "-" r => ((-1)%Z, r)
    | String "+" r => (1%Z, r)
    | _ => (1%Z, s1)
    end in
  let '(radix, s3) :=
    match s2 with
    | String "0" (String "x" r) => (16%Z, r)
    | String "0" (String "X" r) => (16%Z, r)
    | _ => (10%Z, s2)
    end in
  option_map (Z.mul sign) (parse_digits radix None s3).

(** The decimal text of a natural number, as a template literal prints a
    non-negative integer. *)
Definition decimal (n : nat) : string :=
  NilZero.string_of_uint (Nat.to_uint n).

Fixpoint join (sep : string) (l : list string) : string :=
  match l with
  | [] => ""
  | [x] => x
  | x :: l' => x ++ sep ++ join sep l'
  end.

(** [encodeURIComponent]: everything but the unreserved marks is written
    as the percent-escaped bytes of its UTF-8 encoding. *)
Definition unreserved (c : ascii) : bool :=
  let n := code c in
  ((65 <=? n) && (n <=? 90) || (97 <=? n) && (n <=? 122)
   || (48 <=? n) && (n <=? 57))%N
  || includes c "-_.!~*'()".

Definition hex_digit (n : N) : ascii :=
  if (n <? 10)%N then ascii_of_N (48 + n) else ascii_of_N (55 + n).

Definition percent (b : N) : string :=
  String "%" (String (hex_digit (b / 16)) (String (hex_digit (b mod 16)) "")).

Definition utf8 (c : ascii) : list N :=
  let n := code c in
  if (n <? 128)%N then [n] else [192 + n / 64; 128 + n mod 64]%N.

Fixpoint encodeURIComponent (s : string) : string :=
  match s with
  | "" => ""
  | String c s' =>
      (if unreserved c then String c ""
       else String.concat "" (map percent (utf8 c)))
      ++ encodeURIComponent s'
  end.

(** Truthiness of a value that is a string or [undefined]. *)
Definition truthy (v : option string) : bool :=
  match v with
  | Some s => negb (s =? "")
  | None => false
  end.

(** The text a template literal prints for such a value. *)
Definition str (v : option string) : string :=
  match v with
  | Some s => s
  | None => "undefined"
  end.

(** Optional chaining [o?.f]. *)
Definition chain {A B : Type} (o : option A) (f : A -> option B) : option B :=
  match o with
  | Some a => f a
  | None => None
  end.

End JS.


(* ================================================================== *)
(** ** Data *)

(** The three globals [baseURL], [email] and [apiToken]. *)
Record Session := mkSession {
  email : string;
  apiToken : string;
  baseURL : string
}.

(** The error body Jira sends: [errorMessages] is an array of strings,
    [errors] an object from field names to messages, its entries in the
    order [Object.values] lists them. *)
Record ErrorBody := mkErrorBody {
  errorMessages : option (list string);
  errors : option (list (string * string))
}.

Record Response := mkResponse {
  status : nat;
  data : option ErrorBody
}.

(** A thrown value: the error [axios] rejects with carries the response,
    an ordinary exception only a message. *)
Record Error := mkError {
  response : option Response;
  message : option string
}.

Definition TypeError (m : string) : Error :=
  {| response := None; message := Some m |}.

(** The rich-text document of a description. *)
Record TextNode := mkText { text_type : string; text : string }.
Record Paragraph := mkParagraph { par_type : string; par_content : list TextNode }.
Record Doc := mkDoc { doc_type : string; version : nat; content : list Paragraph }.

(** The body of [POST /issue]. *)
Record IssueFields := mkIssueFields {
  project_key : string;
  summary : string;
  issuetype_name : string;
  description : option Doc
}.

Record IssueData := mkIssueData { fields : IssueFields }.

Inductive Method := GET | POST | PUT | DELETE.

Definition Method_eqb (a b : Method) : bool :=
  match a, b with
  | GET, GET | POST, POST | PUT, PUT | DELETE, DELETE => true
  | _, _ => false
  end.

Record Options := mkOptions {
  opt_method : option Method;
  opt_body : option IssueData
}.

Definition no_options : Options := {| opt_method := None; opt_body := None |}.

(** The configuration object handed to [axios]. *)
Record Config := mkConfig {
  url : string;
  method : Method;
  auth_username : string;
  auth_password : string;
  headers : list (string * string);
  config_data : option IssueData
}.

Module Project.
Record t := mk { key : string; name : string }.
End Project.

Module Issue.
(** [summary] is the issue's [fields.summary]. *)
Record t := mk { key : string; summary : string }.
End Issue.

(** What a successful response carries. *)
Inductive JiraData :=
| DNull                                   (* no body *)
| DProjects (projects : list Project.t)   (* GET /project *)
| DSearch (issues : list Issue.t)         (* GET /search: an object with [issues] *)
| DObject.                                (* any other object: a user, a project, an issue *)

Inductive AxiosOutcome :=
| Resolved (d : JiraData)
| Rejected (e : Error).

(** [{success: true, data}] or [{success: false, error}]. *)
Inductive Result :=
| Success (d : JiraData)
| Failure (error : string).

Definition success (r : Result) : bool :=
  match r with
  | Success _ => true
  | Failure _ => false
  end.

(* ================================================================== *)
(** ** Helper functions *)

(** Create Jira URL from email domain *)
Definition generateBaseURLFromEmail (email : string) : string :=
  if negb (JS.truthy (Some email)) || negb (JS.includes "@" email) then ""
  else
    let domain := nth_error (JS.split "@" email) 0 in
    "https://" ++ JS.str domain ++ ".atlassian.net".

(** Convert API errors to simple messages *)
Definition formatJiraError (error : Error) : string :=
  let body := JS.chain (response error) data in
  let first := JS.chain (JS.chain body errorMessages) (fun l => nth_error l 0) in
  if JS.truthy first then JS.str first
  else match JS.chain body errors with
  | Some es => JS.join ", " (map snd es)
  | None =>
      let status_is n :=
        match response error with
        | Some r => status r =? n
        | None => false
        end%nat in
      if status_is 401 then
        "Authentication failed. Please check your email and API token."
      else if status_is 403 then
        "Access denied. You may not have permission for this action."
      else if status_is 404 then
        "Resource not found. Please check the issue key or project key."
      else if JS.truthy (message error) then JS.str (message error)
      else "Unknown error occurred"
  end.

(** Format text for Jira description *)
Definition formatDescriptionForJira (description : option string) : option Doc :=
  if negb (JS.truthy description)
     || negb (JS.truthy (option_map JS.trim description))
  then None
  else Some {| doc_type := "doc"; version := 1;
               content := [ {| par_type := "paragraph";
                               par_content :=
                                 [ {| text_type := "text";
                                      text := JS.trim (JS.str description) |} ] |} ] |}.


(* ================================================================== *)
(** ** Worlds and computations *)

Record World := mkWorld {
  session : Session;          (* the three globals *)
  requests : list Config;     (* every config handed to axios, oldest first *)
  lines_read : nat            (* how many answers the terminal has given *)
}.

Definition initial_world : World :=
  {| session := {| email := ""; apiToken := ""; baseURL := "" |};
     requests := [];
     lines_read := 0 |}.

Inductive Outcome (A : Type) :=
| Ret (a : A)
| Throw (e : Error).

Arguments Ret {A} a.
Arguments Throw {A} e.

Definition M (A : Type) : Type := World -> Outcome A * World.

Definition ret {A : Type} (a : A) : M A := fun w => (Ret a, w).

Definition throw {A : Type} (e : Error) : M A := fun w => (Throw e, w).

Definition bind {A B : Type} (m : M A) (k : A -> M B) : M B :=
  fun w =>
    match m w with
    | (Ret a, w') => k a w'
    | (Throw e, w') => (Throw e, w')
    end.

(** [try { m } catch (error) { h error }] *)
Definition try_catch {A : Type} (m : M A) (h : Error -> M A) : M A :=
  fun w =>
    match m w with
    | (Ret a, w') => (Ret a, w')
    | (Throw e, w') => h e w'
    end.

Declare Scope js_scope.
Delimit Scope js_scope with js.
Notation "x <- m ;; k" := (bind m (fun x => k))
  (at level 61, m at next level, right associativity) : js_scope.
Notation "m ;;; k" := (bind m (fun _ => k))
  (at level 61, right associativity) : js_scope.
Local Open Scope js_scope.

Definition get_session : M Session := fun w => (Ret (session w), w).

(** Save login credentials and generate Jira URL automatically *)
Definition setCredentials (jiraEmail jiraToken : string) : M unit :=
  fun w =>
    (Ret tt,
     {| session := {| email := jiraEmail;
                      apiToken := jiraToken;
                      baseURL := generateBaseURLFromEmail jiraEmail |};
        requests := requests w;
        lines_read := lines_read w |}).

(* ================================================================== *)
(** ** Sample collaborators

    A Jira site with three projects and two issues, a few failing
    transports and scripted terminals, for running the client. *)

Definition three_projects : list Project.t :=
  [ {| Project.key := "BTS"; Project.name := "Bug Tracking" |};
    {| Project.key := "OPS"; Project.name := "Operations" |};
    {| Project.key := "WEB"; Project.name := "Web Site" |} ].

Definition two_issues : list Issue.t :=
  [ {| Issue.key := "BTS-1"; Issue.summary := "Login fails" |};
    {| Issue.key := "BTS-2"; Issue.summary := "Logout fails" |} ].

Definition ends_with (suffix s : string) : bool :=
  substring (String.length s - String.length suffix) (String.length suffix) s
  =? suffix.

(** Answers every request: the project list, the issues of a search, an
    object for any other GET or POST, nothing for a DELETE. *)
Definition sample_axios (history : list Config) (config : Config)
  : AxiosOutcome :=
  match method config with
  | DELETE => Resolved DNull
  | POST | PUT => Resolved DObject
  | GET =>
      if ends_with "/project" (url config) then
        Resolved (DProjects three_projects)
      else match index 0 "/search?" (url config) with
           | Some _ => Resolved (DSearch two_issues)
           | None => Resolved DObject
           end
  end.

(** Rejects every request with the same error. *)
Definition failing_axios (e : Error) (history : list Config) (config : Config)
  : AxiosOutcome :=
  Rejected e.

Definition error_with_both : Error :=
  {| response :=
       Some {| status := 400;
               data := Some {| errorMessages := Some ["A"];
                               errors := Some [("x", "B")] |} |};
     message := Some "Request failed with status code 400" |}.

Definition error_with_empty_first : Error :=
  {| response :=
       Some {| status := 400;
               data := Some {| errorMessages := Some [""];
                               errors := Some [("x", "B")] |} |};
     message := Some "Request failed with status code 400" |}.

Definition error_not_found : Error :=
  {| response := Some {| status := 404; data := None |};
     message := Some "Request failed with status code 404" |}.

(** A terminal whose user types the given lines, then empty lines. *)
Definition answers_of (lines : list string) (k : nat) : string :=
  nth k lines "".

Definition alice_world : World :=
  snd (setCredentials "alice@co" "tok" initial_world).

(** Resolves every request, the project listing with a [null] body. *)
Definition null_project_axios (history : list Config) (config : Config)
  : AxiosOutcome :=
  if ends_with "/project" (url config) then Resolved DNull
  else Resolved DObject.

Definition error_with_empty_body : Error :=
  {| response :=
       Some {| status := 401;
               data := Some {| errorMessages := Some [];
                               errors := Some [] |} |};
     message := Some "Request failed with status code 401" |}.

Definition setup_answers : nat -> string :=
  answers_of ["2"; "alice@co"; "tok"].

Section Client.

(** The transport: what [axios(config)] settles to, given the requests
    made before. *)
Variable axios : list Config -> Config -> AxiosOutcome.

(** The terminal: the [k]-th line the user enters. *)
Variable answers : nat -> string.

(** [process.env.JIRA_EMAIL] and [process.env.JIRA_API_TOKEN] once
    [dotenv.config()] has run. *)
Variable JIRA_EMAIL JIRA_API_TOKEN : option string.

Definition await_axios (config : Config) : M JiraData :=
  fun w =>
    let w' := {| session := session w;
                 requests := requests w ++ [config];
                 lines_read := lines_read w |} in
    match axios (requests w) config with
    | Resolved d => (Ret d, w')
    | Rejected e => (Throw e, w')
    end.

(** [await question(prompt)]: the next line from the terminal. *)
Definition question : M string :=
  fun w =>
    (Ret (answers (lines_read w)),
     {| session := session w;
        requests := requests w;
        lines_read := S (lines_read w) |}).

(* ------------------------------------------------------------------ *)
(** ** API functions *)

(** Make API requests to Jira *)
Definition makeJiraRequest (path : string) (options : Options) : M Result :=
  s <- get_session ;;
  let url := baseURL s ++ "/rest/api/3" ++ path in
  let method := match opt_method options with Some m => m | None => GET end in
  let with_body :=
    match opt_body options with
    | Some _ => Method_eqb method POST || Method_eqb method PUT
    | None => false
    end in
  let config :=
    {| url := url;
       method := method;
       auth_username := email s;
       auth_password := apiToken s;
       headers := ("Accept", "application/json")
                  :: (if with_body
                      then [("Content-Type", "application/json")] else []);
       config_data := if with_body then opt_body options else None |} in
  try_catch
    (d <- await_axios config ;;
     if Method_eqb method DELETE then ret (Success DNull)
     else ret (Success d))
    (fun error => ret (Failure (formatJiraError error))).

(** Get current user info *)
Definition getCurrentUser : M Result := makeJiraRequest "/myself" no_options.

(** Get list of projects *)
Definition getProjectsList : M Result := makeJiraRequest "/project" no_options.

(** [!v || !v.trim()] *)
Definition blank (v : option string) : bool :=
  negb (JS.truthy v) || negb (JS.truthy (option_map JS.trim v)).

(** Get project details *)
Definition getProject (projectKey : option string) : M Result :=
  if blank projectKey then ret (Failure "Project key is required")
  else makeJiraRequest ("/project/" ++ JS.trim (JS.str projectKey)) no_options.

(** Get issues from project *)
Definition getIssuesList (projectKey : option string) (maxResults : option nat)
  : M Result :=
  let maxResults := match maxResults with Some n => n | None => 50 end in
  if blank projectKey then ret (Failure "Project key is required")
  else
    let jql := "project = " ++ JS.trim (JS.str projectKey)
               ++ " ORDER BY created ASC" in
    makeJiraRequest ("/search?jql=" ++ JS.encodeURIComponent jql
                     ++ "&maxResults=" ++ JS.decimal maxResults) no_options.

(** Get issue details *)
Definition getIssue (issueKey : option string) : M Result :=
  if blank issueKey then ret (Failure "Issue key is required (e.g., BTS-1)")
  else makeJiraRequest ("/issue/" ++ JS.trim (JS.str issueKey)) no_options.

(** Create new issue *)
Definition createIssue (projectKey summary description issueType : option string)
  : M Result :=
  let issueType := match issueType with Some t => t | None => "Task" end in
  if negb (JS.truthy projectKey) || negb (JS.truthy summary) then
    ret (Failure "Project key and summary are required")
  else
    (* First, check if project exists *)
    projectCheck <- getProject projectKey ;;
    match projectCheck with
    | Failure inner =>
        ret (Failure ("Project '" ++ JS.str projectKey
                      ++ "' not found or you don't have access to it. "
                      ++ inner))
    | Success _ =>
        let formattedDescription := formatDescriptionForJira description in
        let issueData :=
          {| fields := {| project_key := JS.str projectKey;
                          summary := JS.str summary;
                          issuetype_name := issueType;
                          description := formattedDescription |} |} in
        makeJiraRequest "/issue"
          {| opt_method := Some POST; opt_body := Some issueData |}
    end.

(** Delete issue *)
Definition deleteIssue (issueKey : option string) : M Result :=
  if negb (JS.truthy issueKey) then
    ret (Failure "Issue key is required (e.g., BTS-1)")
  else
    makeJiraRequest ("/issue/" ++ JS.str issueKey)
      {| opt_method := Some DELETE; opt_body := None |}.

(* ------------------------------------------------------------------ *)
(** ** Reading a response body

    The flows read [data.length], [data.forEach], [data.issues] and the
    fields of an issue.  On a body of another shape JavaScript yields
    [undefined] or throws a TypeError; the message is the engine's. *)

(** [data.length] *)
Definition data_length (d : JiraData) : M (option nat) :=
  match d with
  | DNull => throw (TypeError "Cannot read properties of null")
  | DProjects projects => ret (Some (length projects))
  | DSearch _ | DObject => ret None
  end.

(** [data.forEach(...)]: visits the entries of an array. *)
Definition data_forEach (d : JiraData) : M (list Project.t) :=
  match d with
  | DProjects projects => ret projects
  | DNull => throw (TypeError "Cannot read properties of null")
  | DSearch _ | DObject => throw (TypeError "forEach is not a function")
  end.

(** [data.issues], read as an array by [selectIssueFromList]. *)
Definition data_issues (d : JiraData) : M (list Issue.t) :=
  match d with
  | DSearch issues => ret issues
  | DNull => throw (TypeError "Cannot read properties of null")
  | DProjects _ | DObject => throw (TypeError "Cannot read properties of undefined")
  end.

(** Reading [data.key] and the fields below it for display. *)
Definition data_display (d : JiraData) : M unit :=
  match d with
  | DObject => ret tt
  | DNull => throw (TypeError "Cannot read properties of null")
  | DProjects _ | DSearch _ => throw (TypeError "Cannot read properties of undefined")
  end.

(** The check [selectProject] and [selectIssueFromList] both make on the
    answer: [index = parseInt(choice) - 1], then
    [isNaN(index) || index < 0 || index >= items.length] gives [null], and
    otherwise [items[index]] is returned. *)
Definition pick {A : Type} (items : list A) (choice : string) : option A :=
  let index := option_map (fun n => n - 1)%Z (JS.parseInt choice) in
  match index with
  | None => None
  | Some i =>
      if (i <? 0)%Z || (i >=? Z.of_nat (length items))%Z then None
      else nth_error items (Z.to_nat i)
  end.

(* ------------------------------------------------------------------ *)
(** ** Credentials setup *)

(** Test if credentials work *)
Definition checkCredentials : M bool :=
  s <- get_session ;;
  if negb (JS.truthy (Some (email s))) || negb (JS.truthy (Some (apiToken s)))
  then ret false
  else
    (* Test credentials by trying to get current user *)
    userResult <- getCurrentUser ;;
    if negb (success userResult) then ret false
    else
      (* Check if user has access to any projects *)
      projectsResult <- getProjectsList ;;
      match projectsResult with
      | Failure _ => ret false
      | Success d =>
          len <- data_length d ;;
          match len with
          | Some 0 => ret false
          | _ => ret true
          end
      end.

(** Load credentials from .env file *)
Definition useEnvCredentials : M bool :=
  let envEmail := JIRA_EMAIL in
  let envToken := JIRA_API_TOKEN in
  if JS.truthy envEmail && JS.truthy envToken then
    setCredentials (JS.str envEmail) (JS.str envToken) ;;;
    isValid <- checkCredentials ;;
    if negb isValid then ret false else ret true
  else ret false.

(** Enter credentials manually *)
Definition enterCredentialsManually : M bool :=
  jiraEmail <- question ;;
  jiraToken <- question ;;
  if negb (JS.truthy (Some (JS.trim jiraEmail)))
     || negb (JS.truthy (Some (JS.trim jiraToken)))
  then ret false
  else
    setCredentials (JS.trim jiraEmail) (JS.trim jiraToken) ;;;
    isValid <- checkCredentials ;;
    if isValid then ret true else ret false.

(* ------------------------------------------------------------------ *)
(** ** Actions on project *)

(** Let user choose a project *)
Definition selectProject : M (option Project.t) :=
  try_catch
    (projectsResult <- getProjectsList ;;
     match projectsResult with
     | Failure _ => ret None
     | Success d =>
         len <- data_length d ;;
         match len with
         | Some 0 => ret None
         | _ =>
             projects <- data_forEach d ;;
             projectChoice <- question ;;
             ret (pick projects projectChoice)
         end
     end)
    (fun _ => ret None).

(** Let user pick an issue from list *)
Definition selectIssueFromList (issues : list Issue.t) (projectKey : string)
  : M (option Issue.t) :=
  if (length issues =? 0)%nat then ret None
  else
    issueChoice <- question ;;
    ret (pick issues issueChoice).

(** Let user choose an issue from project *)
Definition selectIssueFromProject : M (option Issue.t) :=
  try_catch
    ((* Step 1: Select Project *)
     selectedProject <- selectProject ;;
     match selectedProject with
     | None => ret None
     | Some project =>
         (* Step 2: Fetch Issues *)
         issuesResult <- getIssuesList (Some (Project.key project)) None ;;
         match issuesResult with
         | Failure _ => ret None
         | Success d =>
             (* Step 3: Select Issue *)
             issues <- data_issues d ;;
             selectIssueFromList issues (Project.key project)
         end
     end)
    (fun _ => ret None).

(** Show issue details *)
Definition displayIssue (issueKey : string) : M unit :=
  try_catch
    (result <- getIssue (Some issueKey) ;;
     match result with
     | Success d => data_display d
     | Failure _ => ret tt
     end)
    (fun _ => ret tt).

(** Choose and show an issue *)
Definition selectAndDisplayIssue : M unit :=
  selectedIssue <- selectIssueFromProject ;;
  match selectedIssue with
  | Some issue => displayIssue (Issue.key issue)
  | None => ret tt
  end.

(** Create a new issue *)
Definition createNewIssue : M unit :=
  try_catch
    (selectedProject <- selectProject ;;
     match selectedProject with
     | None => ret tt
     | Some project =>
         summary <- question ;;
         description <- question ;;
         if negb (JS.truthy (Some (JS.trim summary))) then ret tt
         else
           result <- createIssue (Some (Project.key project))
                       (Some (JS.trim summary)) (Some (JS.trim description))
                       None ;;
           match result with
           | Success d => data_display d
           | Failure _ => ret tt
           end
     end)
    (fun _ => ret tt).

(** Delete an issue *)
Definition deleteSelectedIssue : M unit :=
  try_catch
    ((* Step 1-3: Select issue using shared function *)
     selectedIssue <- selectIssueFromProject ;;
     match selectedIssue with
     | None => ret tt
     | Some issue =>
         (* Step 4: Confirm deletion *)
         confirmation <- question ;;
         if negb (JS.toLowerCase confirmation =? "yes") then ret tt
         else
           (* Step 5: Delete the issue *)
           deleteIssue (Some (Issue.key issue)) ;;;
           ret tt
     end)
    (fun _ => ret tt).

(* ------------------------------------------------------------------ *)
(** ** Menus

    Each menu is a [while (true)] loop; one pass through its body is a
    computation that tells whether the loop returns. *)

(** One pass of [setupMenu]. *)
Definition setupMenu_pass : M bool :=
  choice <- question ;;
  let choice := JS.trim choice in
  if choice =? "1" then
    envSuccess <- useEnvCredentials ;;
    ret envSuccess
  else if choice =? "2" then
    success <- enterCredentialsManually ;;
    s <- get_session ;;
    ret (success && JS.truthy (Some (email s)) && JS.truthy (Some (apiToken s)))
  else ret false.

(** One pass of [mainMenu]. *)
Definition mainMenu_pass : M bool :=
  choice <- question ;;
  let choice := JS.trim choice in
  if choice =? "1" then selectAndDisplayIssue ;;; ret false
  else if choice =? "2" then createNewIssue ;;; ret false
  else if choice =? "3" then deleteSelectedIssue ;;; ret false
  else if choice =? "4" then ret true
  else ret false.

(** [main]: the setup menu, then the main menu; an exception that escapes
    ends the process. *)
Inductive Phase := InSetupMenu | InMainMenu | Exited | Crashed.

Definition step (st : Phase * World) : Phase * World :=
  match st with
  | (InSetupMenu, w) =>
      match setupMenu_pass w with
      | (Ret true, w') => (InMainMenu, w')
      | (Ret false, w') => (InSetupMenu, w')
      | (Throw _, w') => (Crashed, w')
      end
  | (InMainMenu, w) =>
      match mainMenu_pass w with
      | (Ret true, w') => (Exited, w')
      | (Ret false, w') => (InMainMenu, w')
      | (Throw _, w') => (Crashed, w')
      end
  | (Exited, w) => (Exited, w)
  | (Crashed, w) => (Crashed, w)
  end.

(** The states [main] passes through. *)
Inductive reachable : Phase * World -> Prop :=
| reachable_start : reachable (InSetupMenu, initial_world)
| reachable_step : forall st, reachable st -> reachable (step st).

(* ================================================================== *)
(** ** Specification-side definitions

    What the specification says in its own words, to be compared with the
    functions above. *)

(** The world after one more request. *)
Definition sent (w : World) (config : Config) : World :=
  {| session := session w;
     requests := requests w ++ [config];
     lines_read := lines_read w |}.

(** The world after one more answer. *)
Definition answered (w : World) : World :=
  {| session := session w;
     requests := requests w;
     lines_read := S (lines_read w) |}.

(** Section 4.1: one call with the session's email and token as HTTP Basic
    credentials, an [Accept] header, and a [Content-Type] header with the
    body when the method is POST or PUT and a body is supplied. *)
Definition request_for (s : Session) (path : string) (options : Options)
  : Config :=
  let m := match opt_method options with Some m => m | None => GET end in
  match m, opt_body options with
  | POST, Some body | PUT, Some body =>
      {| url := baseURL s ++ "/rest/api/3" ++ path;
         method := m;
         auth_username := email s;
         auth_password := apiToken s;
         headers := [("Accept", "application/json");
                     ("Content-Type", "application/json")];
         config_data := Some body |}
  | _, _ =>
      {| url := baseURL s ++ "/rest/api/3" ++ path;
         method := m;
         auth_username := email s;
         auth_password := apiToken s;
         headers := [("Accept", "application/json")];
         config_data := None |}
  end.

(** Section 4.1, the error precedence: each rule proposes a message when it
    applies, and the first proposal wins. *)
Definition body_of (e : Error) : option ErrorBody :=
  match response e with
  | Some r => data r
  | None => None
  end.

Definition non_empty (m : string) : option string :=
  if m =? "" then None else Some m.

Definition rule_errorMessages (e : Error) : option string :=
  match body_of e with
  | Some b =>
      match errorMessages b with
      | Some (m :: _) => non_empty m
      | _ => None
      end
  | None => None
  end.

Definition rule_errors (e : Error) : option string :=
  match body_of e with
  | Some b =>
      match errors b with
      | Some es => Some (String.concat ", " (map snd es))
      | None => None
      end
  | None => None
  end.

Definition rule_status (code : nat) (literal : string) (e : Error)
  : option string :=
  match response e with
  | Some r => if (status r =? code)%nat then Some literal else None
  | None => None
  end.

Definition rule_message (e : Error) : option string :=
  match message e with
  | Some m => non_empty m
  | None => None
  end.

Definition rules (e : Error) : list (option string) :=
  [ rule_errorMessages e;
    rule_errors e;
    rule_status 401
      "Authentication failed. Please check your email and API token." e;
    rule_status 403
      "Access denied. You may not have permission for this action." e;
    rule_status 404
      "Resource not found. Please check the issue key or project key." e;
    rule_message e ].

Fixpoint first_of (proposals : list (option string)) (otherwise : string)
  : string :=
  match proposals with
  | [] => otherwise
  | Some m :: _ => m
  | None :: rest => first_of rest otherwise
  end.

Definition normalized_error (e : Error) : string :=
  first_of (rules e) "Unknown error occurred".

(** A string is blank after trimming exactly when it holds only white
    space. *)
Fixpoint all_space (s : string) : bool :=
  match s with
  | "" => true
  | String c s' => JS.is_space c && all_space s'
  end.

(** An input is numeric when it is a decimal numeral: digits, at least
    one. *)
Definition is_digit (c : ascii) : bool :=
  let n := JS.code c in ((48 <=? n) && (n <=? 57))%N.

Definition numeric (s : string) : bool :=
  negb (s =? "") && forallb is_digit (list_ascii_of_string s).

(** The token "yes" in any mix of upper and lower case. *)
Definition is_yes (s : string) : bool :=
  existsb (String.eqb s)
    ["yes"; "yeS"; "yEs"; "yES"; "Yes"; "YeS"; "YEs"; "YES"].

(** The four ways the check fails, each after the ones before it. *)
Definition no_credentials (w : World) : Prop :=
  email (session w) = "" \/ apiToken (session w) = "".

Definition user_call_fails (w : World) : Prop :=
  ~ no_credentials w
  /\ exists e w1, getCurrentUser w = (Ret (Failure e), w1).

Definition projects_call_fails (w : World) : Prop :=
  ~ no_credentials w
  /\ exists u w1 e w2,
       getCurrentUser w = (Ret (Success u), w1)
       /\ getProjectsList w1 = (Ret (Failure e), w2).

Definition no_projects (w : World) : Prop :=
  ~ no_credentials w
  /\ exists u w1 w2,
       getCurrentUser w = (Ret (Success u), w1)
       /\ getProjectsList w1 = (Ret (Success (DProjects [])), w2).

(** A computation that leaves the three globals as they were. *)
Definition keeps_session {A : Type} (m : M A) : Prop :=
  forall w, session (snd (m w)) = session w.

(** A computation that changes the globals, if at all, to what a call of
    [setCredentials] stores. *)
Definition stored_by_setCredentials (s : Session) : Prop :=
  exists e t,
    s = {| email := e; apiToken := t; baseURL := generateBaseURLFromEmail e |}.

Definition sets_credentials_only {A : Type} (m : M A) : Prop :=
  forall w, session (snd (m w)) = session w
            \/ stored_by_setCredentials (session (snd (m w))).

Definition session_invariant (w : World) : Prop :=
  baseURL (session w) = ""
  \/ baseURL (session w) = generateBaseURLFromEmail (email (session w)).

(* ------------------------------------------------------------------ *)
(** ** What the lists show *)

(** The line [forEach] prints for the project at [index]:
    [`${index + 1}. ${project.key} - ${project.name}`]. *)
Definition project_line (index : nat) (project : Project.t) : string :=
  JS.decimal (index + 1) ++ ". " ++ Project.key project ++ " - "
  ++ Project.name project.

(** The line [forEach] prints for the issue at [index]:
    [`${index + 1}. ${issue.key} - ${issue.fields.summary}`]. *)
Definition issue_line (index : nat) (issue : Issue.t) : string :=
  JS.decimal (index + 1) ++ ". " ++ Issue.key issue ++ " - "
  ++ Issue.summary issue.

(* ------------------------------------------------------------------ *)
(** ** Predicates on computations *)

(** A computation that returns, whatever the world: it never throws. *)
Definition returns {A : Type} (m : M A) : Prop :=
  forall w, exists a, fst (m w) = Ret a.

(** A request built from the session [s] by [makeJiraRequest]. *)
Definition from_session (s : Session) (c : Config) : Prop :=
  exists path options, c = request_for s path options.

(** A request built from [s] that only reads: a GET without a body. *)
Definition read_from_session (s : Session) (c : Config) : Prop :=
  exists path, c = request_for s path no_options.

(** A computation that keeps the session and adds to the log only
    requests that satisfy [Q] for that session. *)
Definition emits (Q : Session -> Config -> Prop) {A : Type} (m : M A) : Prop :=
  forall w,
    session (snd (m w)) = session w
    /\ exists l, requests (snd (m w)) = (requests w ++ l)%list
                 /\ Forall (Q (session w)) l.

(** A string without white space at either end. *)
Definition starts_clean (s : string) : bool :=
  match s with
  | "" => true
  | String c _ => negb (JS.is_space c)
  end.

Fixpoint ends_clean (s : string) : bool :=
  match s with
  | "" => true
  | String c "" => negb (JS.is_space c)
  | String _ s' => ends_clean s'
  end.

(** The characters [encodeURIComponent] lets through or writes. *)
Definition url_safe (c : ascii) : bool :=
  JS.unreserved c || Ascii.eqb c "%".

Fixpoint all_chars (p : ascii -> bool) (s : string) : bool :=
  match s with
  | "" => true
  | String c s' => p c && all_chars p s'
  end.

(** A request that carries credentials and goes to the site derived from
    the email it authenticates with. *)
Definition authenticated (c : Config) : Prop :=
  auth_username c <> "" /\ auth_password c <> ""
  /\ exists path,
       url c = generateBaseURLFromEmail (auth_username c)
               ++ "/rest/api/3" ++ path.

(** Both credentials are set. *)
Definition has_credentials (w : World) : Prop :=
  email (session w) <> "" /\ apiToken (session w) <> "".

(** Whether a string begins with the "x" or "X" of a hexadecimal prefix. *)
Definition starts_with_x (s : string) : bool :=
  match s with
  | "" => false
  | String c _ => Ascii.eqb c "x" || Ascii.eqb c "X"
  end.

(** The session's base URL is the one derived from its email, and every
    request made so far was authenticated. *)
Definition safe (w : World) : Prop :=
  baseURL (session w) = generateBaseURLFromEmail (email (session w))
  /\ Forall authenticated (requests w).

(* ================================================================== *)
(** ** Properties of the built-ins *)

Example trim_ex : JS.trim "  BTS 1 " = "BTS 1". Proof. reflexivity. Qed.
Example split_ex : JS.split "@" "a@b@c" = ["a"; "b"; "c"]. Proof. reflexivity. Qed.
Example parseInt_ex1 : JS.parseInt " 2abc" = Some 2%Z. Proof. reflexivity. Qed.
Example parseInt_ex2 : JS.parseInt "abc" = None. Proof. reflexivity. Qed.
Example parseInt_ex3 : JS.parseInt "0x1f" = Some 31%Z. Proof. reflexivity. Qed.
Example parseInt_ex4 : JS.parseInt "-7" = Some (-7)%Z. Proof. reflexivity. Qed.
Example decimal_ex : JS.decimal 50 = "50" /\ JS.decimal 0 = "0". Proof. split; reflexivity. Qed.
Example encode_ex : JS.encodeURIComponent "a = b/c" = "a%20%3D%20b%2Fc". Proof. reflexivity. Qed.
Example lower_ex : JS.toLowerCase "YeS!" = "yes!". Proof. reflexivity. Qed.
Example base_ex : generateBaseURLFromEmail "alice@co" = "https://alice.atlassian.net".
Proof. reflexivity. Qed.

Lemma join_concat (sep : string) (l : list string) :
  JS.join sep l = String.concat sep l.
Proof.
  induction l as [|x l' IH]; [reflexivity|].
  destruct l' as [|y l'']; [reflexivity|].
  change (x ++ sep ++ JS.join sep (y :: l'') = x ++ sep ++ String.concat sep (y :: l'')).
  now rewrite IH.
Qed.

Lemma truthy_Some_iff (m : string) : JS.truthy (Some m) = true <-> m <> "".
Proof.
  unfold JS.truthy. destruct (String.eqb_spec m ""); simpl; split; congruence.
Qed.

(** [includes] and [split] against the library's [index] and [substring]. *)
Lemma includes_index (c : ascii) (s : string) :
  match index 0 (String c "") s with
  | None => JS.includes c s = false
  | Some n =>
      JS.includes c s = true /\ hd_error (JS.split c s) = Some (substring 0 n s)
  end.
Proof.
  induction s as [|d s' IH].
  - reflexivity.
  - cbn [index JS.includes JS.split].
    change (prefix (String c "") (String d s'))
      with (if ascii_dec c d then prefix "" s' else false).
    destruct (ascii_dec c d) as [->|Hne].
    + rewrite Ascii.eqb_refl. destruct s'; simpl; split; reflexivity.
    + assert (Hb : Ascii.eqb d c = false)
        by (apply Ascii.eqb_neq; congruence).
      rewrite Hb. simpl orb.
      destruct (index 0 (String c "") s') as [n|].
      * destruct IH as [Hi Hs]. split; [assumption|].
        destruct (JS.split c s') as [|p ps]; [discriminate|].
        simpl in *. congruence.
      * exact IH.
Qed.

(* ================================================================== *)
(** ** The credential session: deriving the base URL *)

(** C6. For every email [e], [generateBaseURLFromEmail e] is the empty
    string when [e] holds no '@' (the empty email among them), and
    otherwise "https://", the part of [e] before its first '@', and
    ".atlassian.net"; "alice@co" gives "https://alice.atlassian.net", and
    [setCredentials] stores the URL so derived next to the email and the
    token. *)
Theorem generateBaseURLFromEmail_derivation :
  (forall e : string,
      generateBaseURLFromEmail e =
      match index 0 "@" e with
      | None => ""
      | Some n => "https://" ++ substring 0 n e ++ ".atlassian.net"
      end)
  /\ index 0 "@" "" = None
  /\ generateBaseURLFromEmail "alice@co" = "https://alice.atlassian.net"
  /\ (forall (e t : string) (w : World),
        setCredentials e t w =
        (Ret tt,
         {| session := {| email := e; apiToken := t;
                          baseURL := generateBaseURLFromEmail e |};
            requests := requests w;
            lines_read := lines_read w |})).
Proof.
  split; [|split; [reflexivity|split; [reflexivity|reflexivity]]].
  intro e. unfold generateBaseURLFromEmail.
  pose proof (includes_index "@" e) as H.
  destruct (index 0 "@" e) as [n|].
  - destruct H as [Hi Hs]. rewrite Hi.
    assert (He : JS.truthy (Some e) = true).
    { destruct e; [discriminate Hi | reflexivity]. }
    rewrite He. simpl.
    destruct (JS.split "@" e) as [|p ps]; [discriminate|].
    simpl in Hs. injection Hs as ->. reflexivity.
  - rewrite H. now rewrite orb_true_r.
Qed.

(* ================================================================== *)
(** ** The result normalizer *)

Lemma formatJiraError_normalized (e : Error) :
  formatJiraError e = normalized_error e.
Proof.
  assert (tail : forall resp msg,
             (match JS.chain (JS.chain resp data) errors with
              | Some es => JS.join ", " (map snd es)
              | None =>
                  if match resp with Some r => (status r =? 401)%nat | None => false end
                  then "Authentication failed. Please check your email and API token."
                  else if match resp with Some r => (status r =? 403)%nat | None => false end
                  then "Access denied. You may not have permission for this action."
                  else if match resp with Some r => (status r =? 404)%nat | None => false end
                  then "Resource not found. Please check the issue key or project key."
                  else if JS.truthy msg then JS.str msg
                  else "Unknown error occurred"
              end)
             = first_of (tl (rules {| response := resp; message := msg |}))
                 "Unknown error occurred").
  { intros resp msg.
    unfold rules, rule_errors, rule_status, rule_message, body_of, non_empty.
    cbn [tl response message].
    destruct resp as [[st [[ems [es|]]|]]|];
      cbn [JS.chain data errors status first_of];
      try apply join_concat;
      repeat (match goal with
              | |- context [(?a =? ?b)%nat] => destruct (a =? b)%nat
              end; cbn [first_of]; try reflexivity);
      destruct msg as [m|]; cbn [JS.truthy JS.str first_of]; try reflexivity;
      destruct (m =? ""); reflexivity. }
  destruct e as [resp msg].
  unfold formatJiraError, normalized_error.
  cbn [response message].
  rewrite tail.
  unfold rules at 2. unfold rule_errorMessages, body_of.
  cbn [response tl].
  destruct resp as [[st [[[[|m l]|] es]|]]|];
    cbn [JS.chain data errorMessages nth_error JS.truthy first_of tl];
    try reflexivity.
  unfold non_empty. cbn [JS.truthy JS.str].
  destruct (m =? ""); reflexivity.
Qed.

(** What [makeJiraRequest] does from a world [w]: one request, built from
    the session, and a result for either way the transport settles. *)
Lemma makeJiraRequest_run (path : string) (options : Options) (w : World) :
  let config := request_for (session w) path options in
  makeJiraRequest path options w =
  (Ret (match axios (requests w) config with
        | Resolved d =>
            match method config with
            | DELETE => Success DNull
            | _ => Success d
            end
        | Rejected e => Failure (formatJiraError e)
        end),
   sent w config).
Proof.
  unfold makeJiraRequest, request_for, bind, get_session, try_catch,
    await_axios, sent, ret.
  destruct options as [[[| | |]|] [body|]]; simpl;
    match goal with
    | |- context [axios ?h ?c] => destruct (axios h c)
    end; reflexivity.
Qed.

(** C1. Whenever the transport fails, [makeJiraRequest] returns
    [{success: false, error: m}] (and does not throw), where [m] is chosen
    by the fixed precedence of [rules]: the first entry of [errorMessages]
    when that entry is there and not empty; else the values of [errors]
    joined with ", "; else the literal for status 401, 403 or 404; else
    the error's own message if it has one; else "Unknown error occurred".
    With [errorMessages: ["A"]] and [errors: {x: "B"}] the message is "A";
    with only [errors: {x: "B", y: "C"}] it is "B, C". *)
Theorem makeJiraRequest_failure_precedence :
  (forall (path : string) (options : Options) (w : World) (e : Error),
      axios (requests w) (request_for (session w) path options) = Rejected e ->
      makeJiraRequest path options w =
      (Ret (Failure (normalized_error e)),
       sent w (request_for (session w) path options)))
  /\ (forall (st : nat) (msg : option string),
        normalized_error
          {| response :=
               Some {| status := st;
                       data := Some {| errorMessages := Some ["A"];
                                       errors := Some [("x", "B")] |} |};
             message := msg |} = "A")
  /\ (forall (st : nat) (msg : option string),
        normalized_error
          {| response :=
               Some {| status := st;
                       data := Some {| errorMessages := None;
                                       errors := Some [("x", "B"); ("y", "C")] |} |};
             message := msg |} = "B, C").
Proof.
  split; [|split; reflexivity].
  intros path options w e He.
  rewrite makeJiraRequest_run. cbv zeta. rewrite He.
  now rewrite formatJiraError_normalized.
Qed.

(** C10. The first branch of [formatJiraError] tests the first element of
    [errorMessages], not the array: when the body has [errorMessages] but
    the array is empty or its first entry is the empty string, the result
    is the one the later rules give. *)
Theorem formatJiraError_skips_empty_first_message
    (e : Error) (r : Response) (b : ErrorBody) (l : list string)
    (Hr : response e = Some r) (Hb : data r = Some b)
    (Hl : errorMessages b = Some l)
    (Hfirst : hd_error l = None \/ hd_error l = Some "") :
  rule_errorMessages e = None
  /\ formatJiraError e = first_of (tl (rules e)) "Unknown error occurred".
Proof.
  assert (H1 : rule_errorMessages e = None).
  { unfold rule_errorMessages, body_of. rewrite Hr, Hb, Hl.
    destruct l as [|m l']; [reflexivity|].
    destruct Hfirst as [H|H]; [discriminate|].
    simpl in H. injection H as ->. reflexivity. }
  split; [exact H1|].
  rewrite formatJiraError_normalized. unfold normalized_error.
  unfold rules at 1. cbn [first_of]. rewrite H1. reflexivity.
Qed.

(* ================================================================== *)
(** ** The API operations *)

Lemma blank_Some (s : string) :
  blank (Some s) = (JS.trim s =? "").
Proof.
  unfold blank, JS.truthy. cbn [option_map].
  destruct s as [|c s']; [reflexivity|].
  cbn [String.eqb negb orb]. now rewrite negb_involutive.
Qed.

Lemma trimEnd_empty (s : string) : (JS.trimEnd s =? "") = all_space s.
Proof.
  induction s as [|c s' IH]; [reflexivity|].
  cbn [JS.trimEnd all_space].
  destruct (JS.trimEnd s') as [|d r]; simpl in IH; rewrite <- IH.
  - destruct (JS.is_space c); reflexivity.
  - now rewrite andb_false_r.
Qed.

Lemma trim_empty (s : string) : (JS.trim s =? "") = all_space s.
Proof.
  unfold JS.trim. rewrite trimEnd_empty.
  induction s as [|c s' IH]; [reflexivity|].
  cbn [JS.trimStart all_space].
  destruct (JS.is_space c) eqn:Hc; [exact IH|].
  cbn [all_space]. now rewrite Hc.
Qed.

(** The operations that trim their argument answer locally on a missing or
    blank one; [createIssue] and [deleteIssue] do so on a missing or empty
    one. *)
Lemma required_argument_checked_locally (w : World) :
  (forall v, blank v = true ->
     getProject v w = (Ret (Failure "Project key is required"), w)
     /\ (forall n, getIssuesList v n w
                   = (Ret (Failure "Project key is required"), w))
     /\ getIssue v w = (Ret (Failure "Issue key is required (e.g., BTS-1)"), w))
  /\ (forall v, JS.truthy v = false ->
        deleteIssue v w = (Ret (Failure "Issue key is required (e.g., BTS-1)"), w)
        /\ (forall s d t, createIssue v s d t w
              = (Ret (Failure "Project key and summary are required"), w))
        /\ (forall k d t, createIssue k v d t w
              = (Ret (Failure "Project key and summary are required"), w))).
Proof.
  split; intros v Hv.
  - unfold getProject, getIssuesList, getIssue. rewrite Hv. repeat split.
  - unfold deleteIssue, createIssue. rewrite Hv. cbn [negb orb].
    repeat split. intros k d t. now rewrite orb_true_r.
Qed.

(** C2, on the code.  A key of three spaces is blank after trimming, yet
    [deleteIssue] sends [DELETE /issue/   ]; a summary of three spaces is
    blank after trimming, yet [createIssue] sends the project check (and,
    when that succeeds, goes on to [POST /issue]).  [getIssue], whose
    message [deleteIssue] shares, answers locally on the same key. *)
Theorem deleteIssue_createIssue_send_blank_arguments (w : World) :
  all_space "   " = true
  /\ snd (deleteIssue (Some "   ") w)
     = sent w (request_for (session w) "/issue/   "
                 {| opt_method := Some DELETE; opt_body := None |})
  /\ firstn (S (length (requests w)))
       (requests (snd (createIssue (Some "BTS") (Some "   ") None None w)))
     = (requests w
        ++ [request_for (session w) "/project/BTS" no_options])%list
  /\ getIssue (Some "   ") w
     = (Ret (Failure "Issue key is required (e.g., BTS-1)"), w).
Proof.
  split; [reflexivity|]. split; [|split].
  - unfold deleteIssue. cbn [JS.truthy String.eqb negb JS.str append].
    now rewrite makeJiraRequest_run.
  - unfold createIssue, getProject, bind.
    cbn [JS.truthy String.eqb negb orb].
    replace (blank (Some "BTS")) with false by reflexivity.
    rewrite makeJiraRequest_run. cbv zeta.
    set (c := request_for (session w) _ no_options).
    assert (Hc : c = request_for (session w) "/project/BTS" no_options)
      by reflexivity.
    destruct (axios (requests w) c).
    + destruct (method c); rewrite makeJiraRequest_run; cbn [snd sent requests];
        rewrite <- app_assoc, firstn_app, firstn_all2 by (simpl; lia);
        replace (S (length (requests w)) - length (requests w)) with 1 by lia;
        simpl; now rewrite Hc.
    + cbn [ret snd sent requests].
      rewrite firstn_all2 by (rewrite length_app; simpl; lia).
      now rewrite Hc.
  - apply required_argument_checked_locally. reflexivity.
Qed.

Lemma all_space_not_empty (s : string) : all_space s = false -> s <> "".
Proof. intros H ->. discriminate H. Qed.

Lemma not_blank (s : string) : all_space s = false -> blank (Some s) = false.
Proof. intro H. now rewrite blank_Some, trim_empty. Qed.

(** [getProject] either answers locally or makes the one project request. *)
Lemma getProject_requests (v : option string) (w : World) :
  requests (snd (getProject v w)) = requests w
  \/ requests (snd (getProject v w))
     = (requests w
        ++ [request_for (session w) ("/project/" ++ JS.trim (JS.str v))
              no_options])%list.
Proof.
  unfold getProject. destruct (blank v).
  - now left.
  - right. now rewrite makeJiraRequest_run.
Qed.

(** C5. With a project key and a summary that are not missing,
    [createIssue] runs [getProject(projectKey)] first; when that check
    fails with [inner], [createIssue] stops in the world the check left
    (at most the one GET of the project, no [POST /issue]) and fails with
    "Project '{projectKey}' not found or you don't have access to it. "
    followed by [inner]. *)
Theorem createIssue_stops_when_project_check_fails
    (projectKey summary : string) (description issueType : option string)
    (w w1 : World) (inner : string)
    (Hkey : projectKey <> "") (Hsummary : summary <> "")
    (Hcheck : getProject (Some projectKey) w = (Ret (Failure inner), w1)) :
  createIssue (Some projectKey) (Some summary) description issueType w
  = (Ret (Failure ("Project '" ++ projectKey
                   ++ "' not found or you don't have access to it. "
                   ++ inner)), w1)
  /\ (requests w1 = requests w
      \/ requests w1
         = (requests w
            ++ [request_for (session w) ("/project/" ++ JS.trim projectKey)
                  no_options])%list)
  /\ (forall c, In c (requests w1) -> In c (requests w) \/ method c = GET).
Proof.
  assert (Hreq := getProject_requests (Some projectKey) w).
  rewrite Hcheck in Hreq. cbn [snd JS.str] in Hreq.
  split; [|split; [exact Hreq|]].
  - unfold createIssue, bind.
    apply truthy_Some_iff in Hkey. apply truthy_Some_iff in Hsummary.
    rewrite Hkey, Hsummary. cbn [negb orb]. now rewrite Hcheck.
  - intros c Hc. destruct Hreq as [H|H]; rewrite H in Hc; [now left|].
    apply in_app_or in Hc. destruct Hc as [Hc|[<-|[]]]; [now left|right].
    reflexivity.
Qed.

(** C8. For a project key that is not blank, [getIssuesList] makes one
    GET request, for the path "/search?jql=" followed by the URI-encoded
    query "project = {trimmed key} ORDER BY created ASC", "&maxResults="
    and the page size (50 when left out), under "{baseURL}/rest/api/3".
    For "BTS" and the default page size the path is
    /search?jql=project%20%3D%20BTS%20ORDER%20BY%20created%20ASC&maxResults=50,
    and with the credentials of "alice@co" the URL starts with
    https://alice.atlassian.net. *)
Theorem getIssuesList_request :
  (forall (projectKey : string) (maxResults : option nat) (w : World),
      all_space projectKey = false ->
      let path :=
        "/search?jql="
        ++ JS.encodeURIComponent
             ("project = " ++ JS.trim projectKey ++ " ORDER BY created ASC")
        ++ "&maxResults="
        ++ JS.decimal (match maxResults with Some n => n | None => 50 end) in
      getIssuesList (Some projectKey) maxResults w
      = makeJiraRequest path no_options w
      /\ requests (snd (getIssuesList (Some projectKey) maxResults w))
         = (requests w
            ++ [ {| url := (baseURL (session w) ++ "/rest/api/3" ++ path)%string;
                    method := GET;
                    auth_username := email (session w);
                    auth_password := apiToken (session w);
                    headers := [("Accept", "application/json")];
                    config_data := None |} ])%list)
  /\ (forall w : World,
        map url (requests (snd (getIssuesList (Some "BTS") None w)))
        = (map url (requests w)
           ++ [ (baseURL (session w)
                 ++ "/rest/api/3/search?jql=project%20%3D%20BTS%20ORDER%20BY%20created%20ASC&maxResults=50")%string ])%list)
  /\ map url
       (requests
          (snd ((setCredentials "alice@co" "tok" ;;;
                 getIssuesList (Some "BTS") None) initial_world)))
     = [ "https://alice.atlassian.net/rest/api/3/search?jql=project%20%3D%20BTS%20ORDER%20BY%20created%20ASC&maxResults=50" ].
Proof.
  assert (general :
    forall (projectKey : string) (maxResults : option nat) (w : World),
      all_space projectKey = false ->
      getIssuesList (Some projectKey) maxResults w
      = makeJiraRequest
          ("/search?jql="
           ++ JS.encodeURIComponent
                ("project = " ++ JS.trim projectKey ++ " ORDER BY created ASC")
           ++ "&maxResults="
           ++ JS.decimal (match maxResults with Some n => n | None => 50 end))
          no_options w).
  { intros projectKey maxResults w Hk. unfold getIssuesList.
    now rewrite (not_blank _ Hk). }
  split; [|split].
  - intros projectKey maxResults w Hk path. split.
    + now apply general.
    + rewrite (general _ _ _ Hk), makeJiraRequest_run. reflexivity.
  - intro w. rewrite (general "BTS" None w eq_refl), makeJiraRequest_run.
    cbn [snd sent requests]. rewrite map_app. reflexivity.
  - unfold bind. cbn [setCredentials].
    rewrite (general "BTS" None _ eq_refl), makeJiraRequest_run. reflexivity.
Qed.

(* ================================================================== *)
(** ** Selection by number *)

(** Reading back the decimal text of a natural number. *)
Lemma parse_digits_uint (d : Decimal.uint) :
  forall acc : nat,
    JS.parse_digits 10 (Some (Z.of_nat acc)) (NilEmpty.string_of_uint d)
    = Some (Z.of_nat (Nat.of_uint_acc d acc)).
Proof.
  induction d; intro acc;
    cbn [NilEmpty.string_of_uint Nat.of_uint_acc JS.parse_digits];
    [reflexivity | ..];
    match goal with
    | |- context [JS.digit_of 10 ?c] =>
        let v := eval vm_compute in (JS.digit_of 10 c) in
        change (JS.digit_of 10 c) with v
    end;
    cbv iota beta; rewrite <- IHd; do 2 f_equal;
    rewrite Nat.tail_mul_spec; lia.
Qed.

Lemma parse_digits_first (c : ascii) (s : string) (v : nat) :
  JS.digit_of 10 c = Some (Z.of_nat v) ->
  JS.parse_digits 10 None (String c s)
  = JS.parse_digits 10 (Some (Z.of_nat v)) s.
Proof. intro H. cbn [JS.parse_digits]. now rewrite H. Qed.

Lemma parseInt_decimal (k : nat) :
  JS.parseInt (JS.decimal k) = Some (Z.of_nat k).
Proof.
  unfold JS.decimal. rewrite <- (Unsigned.of_to k) at 2.
  generalize (Nat.to_uint k) as d. intro d. unfold Nat.of_uint.
  destruct d as [|d|d|d|d|d|d|d|d|d|d]; [reflexivity | ..];
    try (unfold JS.parseInt;
         cbn [NilZero.string_of_uint NilEmpty.string_of_uint JS.trimStart];
         match goal with
         | |- context [JS.is_space ?c] =>
             change (JS.is_space c) with false
         end;
         cbv iota beta;
         match goal with
         | |- context [String ?c _] =>
             rewrite (parse_digits_first c _
                        (Z.to_nat (match JS.digit_of 10 c with
                                   | Some z => z | None => 0%Z end)))
               by reflexivity
         end;
         rewrite parse_digits_uint; cbn [option_map];
         now rewrite Z.mul_1_l).
  (* a leading zero: the next character is a digit, never an x *)
  unfold JS.parseInt.
  cbn [NilZero.string_of_uint NilEmpty.string_of_uint JS.trimStart].
  change (JS.is_space "0") with false. cbv iota beta.
  assert (H : JS.parse_digits 10 None (String "0" (NilEmpty.string_of_uint d))
              = Some (Z.of_nat (Nat.of_uint_acc (Decimal.D0 d) 0))).
  { rewrite (parse_digits_first "0" _ 0) by reflexivity.
    now rewrite parse_digits_uint. }
  destruct d; cbn [NilEmpty.string_of_uint] in *; cbv iota beta;
    rewrite H; cbn [option_map]; now rewrite Z.mul_1_l.
Qed.

(** An input that starts with anything but a digit, a sign or white space
    is read as NaN. *)
Lemma parseInt_NaN (c : ascii) (s : string) :
  is_digit c = false -> JS.is_space c = false ->
  Ascii.eqb c "+" = false -> Ascii.eqb c "-" = false ->
  JS.parseInt (String c s) = None.
Proof.
  destruct c as [[] [] [] [] [] [] [] []]; intros Hd Hs Hp Hm;
    try discriminate; reflexivity.
Qed.

Lemma pick_by_value {A : Type} (items : list A) (choice : string) :
  pick items choice =
  match JS.parseInt choice with
  | Some v =>
      if (1 <=? v)%Z && (v <=? Z.of_nat (length items))%Z
      then nth_error items (Z.to_nat (v - 1))
      else None
  | None => None
  end.
Proof.
  unfold pick. destruct (JS.parseInt choice) as [v|]; [|reflexivity].
  cbn [option_map].
  destruct (Z.ltb_spec (v - 1) 0), (Z.geb_spec (v - 1) (Z.of_nat (length items))),
    (Z.leb_spec 1 v), (Z.leb_spec v (Z.of_nat (length items)));
    simpl; try reflexivity; lia.
Qed.

(** The numeral [k] picks item [k - 1] when [1 <= k <= n], and nothing
    otherwise. *)
Lemma pick_decimal {A : Type} (items : list A) (k : nat) :
  pick items (JS.decimal k) =
  if (1 <=? k)%nat && (k <=? length items)%nat
  then nth_error items (k - 1) else None.
Proof.
  rewrite pick_by_value, parseInt_decimal.
  destruct (Nat.leb_spec 1 k), (Nat.leb_spec k (length items)),
    (Z.leb_spec 1 (Z.of_nat k)),
    (Z.leb_spec (Z.of_nat k) (Z.of_nat (length items)));
    simpl; try reflexivity; try lia.
  f_equal. lia.
Qed.

(** What [selectProject] does from a world [w]: the project listing, and
    when it brings a list that is not empty, one answer from the terminal. *)
Lemma selectProject_run (w : World) :
  let config := request_for (session w) "/project" no_options in
  selectProject w =
  match axios (requests w) config with
  | Resolved (DProjects (p :: ps)) =>
      (Ret (pick (p :: ps) (answers (lines_read w))), answered (sent w config))
  | _ => (Ret None, sent w config)
  end.
Proof.
  cbv zeta. unfold selectProject, try_catch, bind, getProjectsList.
  rewrite makeJiraRequest_run. cbv zeta.
  change (method (request_for (session w) "/project" no_options)) with GET.
  cbv iota.
  destruct (axios (requests w) (request_for (session w) "/project" no_options))
    as [[|[|p ps]| |]|e]; reflexivity.
Qed.

Lemma selectIssueFromList_run (issues : list Issue.t) (projectKey : string)
    (w : World) :
  selectIssueFromList issues projectKey w =
  match issues with
  | [] => (Ret None, w)
  | _ :: _ => (Ret (pick issues (answers (lines_read w))), answered w)
  end.
Proof. destruct issues; reflexivity. Qed.

Lemma makeJiraRequest_returns (path : string) (options : Options) (w : World) :
  exists r, makeJiraRequest path options w
            = (Ret r, sent w (request_for (session w) path options)).
Proof. rewrite makeJiraRequest_run. eexists. reflexivity. Qed.

Lemma getIssuesList_returns (v : option string) (n : option nat) (w : World) :
  exists r w', getIssuesList v n w = (Ret r, w').
Proof.
  unfold getIssuesList. destruct (blank v).
  - now eexists _, _.
  - destruct (makeJiraRequest_returns
                ("/search?jql="
                 ++ JS.encodeURIComponent
                      ("project = " ++ JS.trim (JS.str v) ++ " ORDER BY created ASC")
                 ++ "&maxResults="
                 ++ JS.decimal (match n with Some n0 => n0 | None => 50 end))
                no_options w) as [r Hr].
    eexists _, _. exact Hr.
Qed.

Lemma deleteIssue_returns (v : option string) (w : World) :
  exists r w', deleteIssue v w = (Ret r, w').
Proof.
  unfold deleteIssue. destruct (JS.truthy v); cbn [negb].
  - destruct (makeJiraRequest_returns ("/issue/" ++ JS.str v)
                {| opt_method := Some DELETE; opt_body := None |} w) as [r Hr].
    eexists _, _. exact Hr.
  - now eexists _, _.
Qed.

(** The selection flows never throw: their [catch] returns [null]. *)
Lemma selectProject_returns (w : World) :
  exists r w', selectProject w = (Ret r, w').
Proof.
  rewrite selectProject_run. cbv zeta.
  destruct (axios _ _) as [[|[|p ps]| |]|e]; now eexists _, _.
Qed.

Lemma selectIssueFromProject_returns (w : World) :
  exists r w', selectIssueFromProject w = (Ret r, w').
Proof.
  unfold selectIssueFromProject, try_catch.
  match goal with
  | |- context [match ?m w with _ => _ end] => destruct (m w) as [[r|e] w']
  end; now eexists _, _.
Qed.

(** A selection that comes back empty ends the flow that asked for it,
    in the world the selection left. *)
Lemma empty_selection_ends_flow (w w1 : World) :
  (selectProject w = (Ret None, w1) ->
     selectIssueFromProject w = (Ret None, w1)
     /\ createNewIssue w = (Ret tt, w1))
  /\ (selectIssueFromProject w = (Ret None, w1) ->
        deleteSelectedIssue w = (Ret tt, w1)
        /\ selectAndDisplayIssue w = (Ret tt, w1)).
Proof.
  split; intro H.
  - unfold selectIssueFromProject, createNewIssue, try_catch, bind.
    now rewrite H.
  - unfold deleteSelectedIssue, selectAndDisplayIssue, try_catch, bind.
    now rewrite H.
Qed.

(** C3, as the code has it.  When the list shown is not empty, both
    selection steps return [pick items answer] after reading one answer
    and without any request of their own.  What is picked depends only on
    what [parseInt] reads from the answer: a number [v] with
    [1 <= v <= n] picks item [v - 1], also when other text follows the
    number ("2abc" picks the item at 1), and NaN or a number outside
    [1..n] picks nothing.  So the numeral of [k] with [1 <= k <= n] picks
    item [k - 1]; the numeral of [0] or of a number above [n], and every
    input [parseInt] reads as NaN (such as "abc" and the empty input),
    pick nothing, and the flow that asked ends without another request.
    With three items "1", "2", "3" pick the items at 0, 1, 2 and "0", "4",
    "abc", "" pick nothing. *)
Theorem selection_by_number :
  (forall (issues : list Issue.t) (projectKey : string) (w : World),
      issues <> [] ->
      selectIssueFromList issues projectKey w
      = (Ret (pick issues (answers (lines_read w))), answered w))
  /\ (forall (w : World) (projects : list Project.t),
        projects <> [] ->
        axios (requests w) (request_for (session w) "/project" no_options)
        = Resolved (DProjects projects) ->
        selectProject w
        = (Ret (pick projects (answers (lines_read w))),
           answered (sent w (request_for (session w) "/project" no_options))))
  /\ (forall (A : Type) (items : list A) (k : nat),
        1 <= k <= length items ->
        exists x, nth_error items (k - 1) = Some x
                  /\ pick items (JS.decimal k) = Some x)
  /\ (forall (A : Type) (items : list A) (k : nat),
        k = 0 \/ length items < k -> pick items (JS.decimal k) = None)
  /\ (forall (A : Type) (items : list A) (choice : string),
        JS.parseInt choice = None -> pick items choice = None)
  /\ (forall (A : Type) (items : list A) (choice : string) (v : Z),
        JS.parseInt choice = Some v ->
        (v < 1 \/ Z.of_nat (length items) < v)%Z ->
        pick items choice = None)
  /\ (forall (A : Type) (items : list A) (choice : string),
        pick items choice =
        match JS.parseInt choice with
        | Some v =>
            if (1 <=? v)%Z && (v <=? Z.of_nat (length items))%Z
            then nth_error items (Z.to_nat (v - 1))
            else None
        | None => None
        end)
  /\ (forall (A : Type) (items : list A) (choice : string) (v : Z),
        JS.parseInt choice = Some v ->
        (1 <= v <= Z.of_nat (length items))%Z ->
        exists x, nth_error items (Z.to_nat (v - 1)) = Some x
                  /\ pick items choice = Some x)
  /\ (forall (A : Type) (a b c : A),
        JS.parseInt "2abc" = Some 2%Z /\ pick [a; b; c] "2abc" = Some b)
  /\ (forall w w1 : World,
        selectProject w = (Ret None, w1) ->
        selectIssueFromProject w = (Ret None, w1)
        /\ createNewIssue w = (Ret tt, w1))
  /\ (forall w w1 : World,
        selectIssueFromProject w = (Ret None, w1) ->
        deleteSelectedIssue w = (Ret tt, w1)
        /\ selectAndDisplayIssue w = (Ret tt, w1))
  /\ (forall (c : ascii) (s : string),
        is_digit c = false -> JS.is_space c = false ->
        Ascii.eqb c "+" = false -> Ascii.eqb c "-" = false ->
        JS.parseInt (String c s) = None)
  /\ (JS.parseInt "abc" = None /\ JS.parseInt "" = None)
  /\ (forall (A : Type) (a b c : A),
        map (pick [a; b; c]) ["1"; "2"; "3"; "0"; "4"; "abc"; ""]
        = [Some a; Some b; Some c; None; None; None; None]).
Proof.
  repeat match goal with |- _ /\ _ => split end.
  - intros issues projectKey w H. rewrite selectIssueFromList_run.
    destruct issues; [contradiction|reflexivity].
  - intros w projects H Hax. rewrite selectProject_run. cbv zeta.
    rewrite Hax. destruct projects; [contradiction|reflexivity].
  - intros A items k [H1 H2]. rewrite pick_decimal.
    destruct (nth_error items (k - 1)) as [x|] eqn:Hx.
    + exists x. split; [reflexivity|].
      destruct (Nat.leb_spec 1 k), (Nat.leb_spec k (length items));
        simpl; try reflexivity; lia.
    + apply nth_error_None in Hx. lia.
  - intros A items k H. rewrite pick_decimal.
    destruct (Nat.leb_spec 1 k), (Nat.leb_spec k (length items));
      simpl; try reflexivity; lia.
  - intros A items choice H. rewrite pick_by_value. now rewrite H.
  - intros A items choice v H Hv. rewrite pick_by_value, H.
    destruct (Z.leb_spec 1 v), (Z.leb_spec v (Z.of_nat (length items)));
      simpl; try reflexivity; lia.
  - intros A items choice. apply pick_by_value.
  - intros A items choice v H [H1 H2]. rewrite pick_by_value, H.
    destruct (Z.leb_spec 1 v), (Z.leb_spec v (Z.of_nat (length items)));
      try lia.
    cbn [andb].
    destruct (nth_error items (Z.to_nat (v - 1))) as [x|] eqn:Hx.
    + now exists x.
    + apply nth_error_None in Hx. lia.
  - intros A a b c. split; reflexivity.
  - intros w w1. apply empty_selection_ends_flow.
  - intros w w1. apply empty_selection_ends_flow.
  - exact parseInt_NaN.
  - reflexivity.
  - reflexivity.
  - reflexivity.
Qed.

(* ================================================================== *)
(** ** The delete flow *)

Lemma lower_char_y (a : ascii) :
  JS.lower_char a = "y"%char -> a = "y"%char \/ a = "Y"%char.
Proof.
  destruct a as [[] [] [] [] [] [] [] []]; vm_compute; intro H;
    try discriminate H; auto.
Qed.

Lemma lower_char_e (a : ascii) :
  JS.lower_char a = "e"%char -> a = "e"%char \/ a = "E"%char.
Proof.
  destruct a as [[] [] [] [] [] [] [] []]; vm_compute; intro H;
    try discriminate H; auto.
Qed.

Lemma lower_char_s (a : ascii) :
  JS.lower_char a = "s"%char -> a = "s"%char \/ a = "S"%char.
Proof.
  destruct a as [[] [] [] [] [] [] [] []]; vm_compute; intro H;
    try discriminate H; auto.
Qed.

Lemma toLowerCase_yes (s : string) :
  (JS.toLowerCase s =? "yes") = is_yes s.
Proof.
  destruct (is_yes s) eqn:Hy.
  - unfold is_yes in Hy. apply existsb_exists in Hy.
    destruct Hy as [v [Hin Hv]]. apply String.eqb_eq in Hv. subst v.
    repeat (destruct Hin as [<-|Hin]; [reflexivity|]). destruct Hin.
  - apply String.eqb_neq. intro H.
    destruct s as [|a [|b [|c [|d s']]]]; try discriminate H.
    cbn [JS.toLowerCase] in H. injection H as Ha Hb Hc.
    apply lower_char_y in Ha. apply lower_char_e in Hb.
    apply lower_char_s in Hc.
    destruct Ha as [-> | ->], Hb as [-> | ->], Hc as [-> | ->];
      discriminate Hy.
Qed.

(** C4. Once an issue has been selected, the delete flow reads one
    confirmation.  Unless it is "yes" in some mix of cases, the flow ends
    there with no request made; when it is, the flow runs
    [deleteIssue(issue.key)] once and ends, which for a key that is not
    empty makes the one [DELETE /issue/{key}] request.  "yes", "YES" and
    "Yes" confirm; "y", the empty input, "no" and "YES please" do not. *)
Theorem deleteSelectedIssue_confirmation
    (w w1 : World) (issue : Issue.t)
    (Hselected : selectIssueFromProject w = (Ret (Some issue), w1)) :
  let confirmation := answers (lines_read w1) in
  (is_yes confirmation = false ->
     deleteSelectedIssue w = (Ret tt, answered w1)
     /\ requests (answered w1) = requests w1)
  /\ (is_yes confirmation = true ->
        exists (r : Result) (w2 : World),
          deleteIssue (Some (Issue.key issue)) (answered w1) = (Ret r, w2)
          /\ deleteSelectedIssue w = (Ret tt, w2)
          /\ (Issue.key issue <> "" ->
              requests w2
              = (requests w1
                 ++ [request_for (session w1) ("/issue/" ++ Issue.key issue)
                       {| opt_method := Some DELETE; opt_body := None |}])%list))
  /\ (forall s : string, is_yes s = true <-> JS.toLowerCase s = "yes")
  /\ map is_yes ["yes"; "YES"; "Yes"; "y"; ""; "no"; "YES please"]
     = [true; true; true; false; false; false; false].
Proof.
  cbv zeta. split; [|split; [|split; [|reflexivity]]].
  - intro Hno. split; [|reflexivity].
    unfold deleteSelectedIssue, try_catch, bind. rewrite Hselected.
    unfold question. rewrite toLowerCase_yes, Hno. reflexivity.
  - intro Hyes.
    destruct (deleteIssue_returns (Some (Issue.key issue)) (answered w1))
      as [r [w2 Hdel]].
    exists r, w2. split; [exact Hdel|]. split.
    + unfold deleteSelectedIssue, try_catch, bind. rewrite Hselected.
      unfold question. rewrite toLowerCase_yes, Hyes. cbn [negb].
      fold (answered w1). now rewrite Hdel.
    + intro Hkey. unfold deleteIssue in Hdel.
      apply truthy_Some_iff in Hkey. rewrite Hkey in Hdel. cbn [negb] in Hdel.
      rewrite makeJiraRequest_run in Hdel. injection Hdel as _ <-.
      reflexivity.
  - intro s. rewrite <- toLowerCase_yes. apply String.eqb_eq.
Qed.

(* ================================================================== *)
(** ** Checking the credentials *)

Lemma getCurrentUser_returns (w : World) :
  exists r, getCurrentUser w
            = (Ret r, sent w (request_for (session w) "/myself" no_options)).
Proof. apply makeJiraRequest_returns. Qed.

Lemma getProjectsList_returns (w : World) :
  exists r, getProjectsList w
            = (Ret r, sent w (request_for (session w) "/project" no_options)).
Proof. apply makeJiraRequest_returns. Qed.

(** C7, as the code has it.  [checkCredentials] returns a boolean and
    does not throw, as long as a successful project listing has a body
    that is not [null].  It returns [false] in
    exactly four cases, tried in this order: the email or the token is
    empty (then nothing is requested and the world is unchanged); the
    [getCurrentUser] call fails (then only that request was made); the
    [getProjectsList] call fails; both succeed and the project list is
    empty.  In every other case it returns [true]. *)
Theorem checkCredentials_cases (w : World)
    (Hbody : forall u w1 w2,
        getCurrentUser w = (Ret (Success u), w1) ->
        getProjectsList w1 <> (Ret (Success DNull), w2)) :
  exists (b : bool) (w' : World),
    checkCredentials w = (Ret b, w')
    /\ (b = false <->
        no_credentials w \/ user_call_fails w \/ projects_call_fails w
        \/ no_projects w)
    /\ (no_credentials w -> w' = w)
    /\ (user_call_fails w ->
        w' = sent w (request_for (session w) "/myself" no_options)).
Proof.
  destruct (String.eqb_spec (email (session w)) "") as [He|He].
  { exists false, w. unfold checkCredentials, bind, get_session.
    rewrite He. repeat split; auto.
    - intros _. left. now left.
    - intros [Hn _]. exfalso. apply Hn. now left. }
  destruct (String.eqb_spec (apiToken (session w)) "") as [Ht|Ht].
  { exists false, w. unfold checkCredentials, bind, get_session.
    rewrite Ht, orb_true_r. repeat split; auto.
    - intros _. left. now right.
    - intros [Hn _]. exfalso. apply Hn. now right. }
  assert (Hcred : ~ no_credentials w) by (intros [|]; contradiction).
  assert (Hstart : forall k : M bool,
             (s <- get_session ;;
              if negb (JS.truthy (Some (email s)))
                 || negb (JS.truthy (Some (apiToken s)))
              then ret false else k) w = k w).
  { intro k. unfold bind, get_session.
    apply truthy_Some_iff in He. apply truthy_Some_iff in Ht.
    now rewrite He, Ht. }
  destruct (getCurrentUser_returns w) as [ru Hu].
  set (w1 := sent w (request_for (session w) "/myself" no_options)) in *.
  destruct (getProjectsList_returns w1) as [rp Hp].
  set (w2 := sent w1 (request_for (session w1) "/project" no_options)) in *.
  (* which of the four cases can hold is read off the two results *)
  assert (Huser : user_call_fails w -> exists e, ru = Failure e).
  { intros [_ [e [w1' H]]]. rewrite Hu in H. injection H as -> _. now exists e. }
  assert (Hprojects : projects_call_fails w -> exists e, rp = Failure e).
  { intros [_ [u [w1' [e [w2' [H1 H2]]]]]]. rewrite Hu in H1.
    injection H1 as _ <-. rewrite Hp in H2. injection H2 as -> _. now exists e. }
  assert (Hempty : no_projects w -> rp = Success (DProjects [])).
  { intros [_ [u [w1' [w2' [H1 H2]]]]]. rewrite Hu in H1.
    injection H1 as _ <-. rewrite Hp in H2. now injection H2 as -> _. }
  assert (Hrun : checkCredentials w
                 = match ru, rp with
                   | Failure _, _ => (Ret false, w1)
                   | Success _, Failure _ => (Ret false, w2)
                   | Success _, Success d =>
                       match d with
                       | DNull => (Throw (TypeError "Cannot read properties of null"), w2)
                       | DProjects [] => (Ret false, w2)
                       | _ => (Ret true, w2)
                       end
                   end).
  { unfold checkCredentials. rewrite Hstart. unfold bind. rewrite Hu.
    destruct ru as [u|e]; [|reflexivity]. cbn [success negb]. rewrite Hp.
    destruct rp as [[|[|p ps]| |]|e]; reflexivity. }
  rewrite Hrun.
  destruct ru as [u|e].
  - destruct rp as [d|e].
    + destruct d as [|[|p ps]| |];
        [ exfalso; exact (Hbody u w1 w2 Hu Hp)
        | exists false, w2 | exists true, w2 .. ];
        (split; [reflexivity|]);
        (split; [|split; [tauto | intro H; destruct (Huser H); discriminate]]).
      1: { split; [intros _|reflexivity].
           do 3 right. split; [exact Hcred|]. now exists u, w1, w2. }
      all: split; [discriminate|].
      all: intros [H|[H|[H|H]]];
        [ tauto | destruct (Huser H) | destruct (Hprojects H)
        | specialize (Hempty H) ];
        discriminate.
    + exists false, w2. split; [reflexivity|].
      split; [|split; [tauto | intro H; destruct (Huser H); discriminate]].
      split; [intros _|reflexivity].
      right. right. left. split; [exact Hcred|]. now exists u, w1, e, w2.
  - exists false, w1. split; [reflexivity|].
    split; [|split; [tauto | reflexivity]].
    split; [intros _|reflexivity].
    right. left. split; [exact Hcred|]. now exists e, w1.
Qed.

(* ================================================================== *)
(** ** The session invariant *)

Lemma keeps_ret {A : Type} (a : A) : keeps_session (ret a).
Proof. intro w. reflexivity. Qed.

Lemma keeps_throw {A : Type} (e : Error) : keeps_session (@throw A e).
Proof. intro w. reflexivity. Qed.

Lemma keeps_bind {A B : Type} (m : M A) (k : A -> M B) :
  keeps_session m -> (forall a, keeps_session (k a)) ->
  keeps_session (bind m k).
Proof.
  intros Hm Hk w. unfold bind. specialize (Hm w).
  destruct (m w) as [[a|e] w']; simpl in *; [|exact Hm].
  now rewrite Hk.
Qed.

Lemma keeps_try_catch {A : Type} (m : M A) (h : Error -> M A) :
  keeps_session m -> (forall e, keeps_session (h e)) ->
  keeps_session (try_catch m h).
Proof.
  intros Hm Hh w. unfold try_catch. specialize (Hm w).
  destruct (m w) as [[a|e] w']; simpl in *; [exact Hm|].
  now rewrite Hh.
Qed.

Lemma keeps_get_session : keeps_session get_session.
Proof. intro w. reflexivity. Qed.

Lemma keeps_question : keeps_session question.
Proof. intro w. reflexivity. Qed.

Lemma keeps_await_axios (config : Config) : keeps_session (await_axios config).
Proof. intro w. unfold await_axios. now destruct (axios _ _). Qed.

Create HintDb session discriminated.

#[local] Hint Resolve keeps_ret keeps_throw keeps_get_session keeps_question
  keeps_await_axios : session.

(** Walks through a computation built from the pieces above. *)
Ltac keeps :=
  repeat first
    [ solve [auto with session]
    | apply keeps_bind; [|intro]
    | apply keeps_try_catch; [|intro]
    | match goal with
      | |- keeps_session (if ?b then _ else _) => destruct b
      | |- keeps_session (match ?x with _ => _ end) => destruct x
      | |- keeps_session (let _ := _ in _) => cbv zeta
      end ].

Lemma keeps_makeJiraRequest (path : string) (options : Options) :
  keeps_session (makeJiraRequest path options).
Proof. intro w. now rewrite makeJiraRequest_run. Qed.

#[local] Hint Resolve keeps_makeJiraRequest : session.

Lemma keeps_getCurrentUser : keeps_session getCurrentUser.
Proof. unfold getCurrentUser. keeps. Qed.

Lemma keeps_getProjectsList : keeps_session getProjectsList.
Proof. unfold getProjectsList. keeps. Qed.

Lemma keeps_getProject (v : option string) : keeps_session (getProject v).
Proof. unfold getProject. keeps. Qed.

Lemma keeps_getIssuesList (v : option string) (n : option nat) :
  keeps_session (getIssuesList v n).
Proof. unfold getIssuesList. keeps. Qed.

Lemma keeps_getIssue (v : option string) : keeps_session (getIssue v).
Proof. unfold getIssue. keeps. Qed.

#[local] Hint Resolve keeps_getCurrentUser keeps_getProjectsList
  keeps_getProject keeps_getIssuesList keeps_getIssue : session.

Lemma keeps_createIssue (k s d t : option string) :
  keeps_session (createIssue k s d t).
Proof. unfold createIssue. keeps. Qed.

Lemma keeps_deleteIssue (v : option string) : keeps_session (deleteIssue v).
Proof. unfold deleteIssue. keeps. Qed.

Lemma keeps_data_length (d : JiraData) : keeps_session (data_length d).
Proof. unfold data_length. keeps. Qed.

Lemma keeps_data_forEach (d : JiraData) : keeps_session (data_forEach d).
Proof. unfold data_forEach. keeps. Qed.

Lemma keeps_data_issues (d : JiraData) : keeps_session (data_issues d).
Proof. unfold data_issues. keeps. Qed.

Lemma keeps_data_display (d : JiraData) : keeps_session (data_display d).
Proof. unfold data_display. keeps. Qed.

#[local] Hint Resolve keeps_createIssue keeps_deleteIssue keeps_data_length
  keeps_data_forEach keeps_data_issues keeps_data_display : session.

Lemma keeps_checkCredentials : keeps_session checkCredentials.
Proof. unfold checkCredentials. keeps. Qed.

Lemma keeps_selectProject : keeps_session selectProject.
Proof. unfold selectProject. keeps. Qed.

Lemma keeps_selectIssueFromList (issues : list Issue.t) (projectKey : string) :
  keeps_session (selectIssueFromList issues projectKey).
Proof. unfold selectIssueFromList. keeps. Qed.

#[local] Hint Resolve keeps_checkCredentials keeps_selectProject
  keeps_selectIssueFromList : session.

Lemma keeps_selectIssueFromProject : keeps_session selectIssueFromProject.
Proof. unfold selectIssueFromProject. keeps. Qed.

Lemma keeps_displayIssue (issueKey : string) :
  keeps_session (displayIssue issueKey).
Proof. unfold displayIssue. keeps. Qed.

#[local] Hint Resolve keeps_selectIssueFromProject keeps_displayIssue : session.

Lemma keeps_selectAndDisplayIssue : keeps_session selectAndDisplayIssue.
Proof. unfold selectAndDisplayIssue. keeps. Qed.

Lemma keeps_createNewIssue : keeps_session createNewIssue.
Proof. unfold createNewIssue. keeps. Qed.

Lemma keeps_deleteSelectedIssue : keeps_session deleteSelectedIssue.
Proof. unfold deleteSelectedIssue. keeps. Qed.

#[local] Hint Resolve keeps_selectAndDisplayIssue keeps_createNewIssue
  keeps_deleteSelectedIssue : session.

Lemma keeps_mainMenu_pass : keeps_session mainMenu_pass.
Proof. unfold mainMenu_pass. keeps. Qed.

Lemma only_keeps {A : Type} (m : M A) :
  keeps_session m -> sets_credentials_only m.
Proof. intros H w. left. apply H. Qed.

Lemma only_setCredentials (e t : string) :
  sets_credentials_only (setCredentials e t).
Proof. intro w. right. now exists e, t. Qed.

Lemma only_bind {A B : Type} (m : M A) (k : A -> M B) :
  sets_credentials_only m -> (forall a, sets_credentials_only (k a)) ->
  sets_credentials_only (bind m k).
Proof.
  intros Hm Hk w. unfold bind. specialize (Hm w).
  destruct (m w) as [[a|e] w']; simpl in *; [|exact Hm].
  destruct (Hk a w') as [H|H]; [|now right].
  rewrite H. exact Hm.
Qed.

Lemma only_useEnvCredentials : sets_credentials_only useEnvCredentials.
Proof.
  unfold useEnvCredentials. cbv zeta.
  destruct (JS.truthy JIRA_EMAIL && JS.truthy JIRA_API_TOKEN).
  - apply only_bind; [apply only_setCredentials|]. intros _.
    apply only_keeps. keeps.
  - apply only_keeps. keeps.
Qed.

Lemma only_enterCredentialsManually :
  sets_credentials_only enterCredentialsManually.
Proof.
  unfold enterCredentialsManually.
  apply only_bind; [apply only_keeps; keeps|]. intro jiraEmail.
  apply only_bind; [apply only_keeps; keeps|]. intro jiraToken.
  match goal with |- sets_credentials_only (if ?b then _ else _) => destruct b end.
  - apply only_keeps. keeps.
  - apply only_bind; [apply only_setCredentials|]. intros _.
    apply only_keeps. keeps.
Qed.

Lemma only_setupMenu_pass : sets_credentials_only setupMenu_pass.
Proof.
  unfold setupMenu_pass.
  apply only_bind; [apply only_keeps; keeps|]. intro choice. cbv zeta.
  destruct (JS.trim choice =? "1").
  - apply only_bind; [apply only_useEnvCredentials|]. intro.
    apply only_keeps. keeps.
  - destruct (JS.trim choice =? "2").
    + apply only_bind; [apply only_enterCredentialsManually|]. intro.
      apply only_keeps. keeps.
    + apply only_keeps. keeps.
Qed.

(** One step of [main] changes the globals only by storing credentials. *)
Lemma step_session (st : Phase * World) :
  session (snd (step st)) = session (snd st)
  \/ stored_by_setCredentials (session (snd (step st))).
Proof.
  destruct st as [[| | |] w]; cbn [step snd]; try (now left).
  - pose proof (only_setupMenu_pass w) as H.
    destruct (setupMenu_pass w) as [[[|]|e] w']; exact H.
  - pose proof (keeps_mainMenu_pass w) as H.
    destruct (mainMenu_pass w) as [[[|]|e] w']; left; exact H.
Qed.

Lemma reachable_session (st : Phase * World) :
  reachable st ->
  baseURL (session (snd st))
  = generateBaseURLFromEmail (email (session (snd st))).
Proof.
  induction 1 as [|st Hst IH]; [reflexivity|].
  destruct (step_session st) as [H|[e [t H]]]; rewrite H;
    [exact IH | reflexivity].
Qed.

(** C9. The session starts with its three fields empty, and in every
    state [main] reaches between two calls the base URL is empty or is the
    URL derived from the stored email.  [setCredentials] stores the email
    and the token together with the URL derived from that email, and it is
    the only writer: the API operations, [checkCredentials], the selection,
    create, delete and display flows and the main menu leave the session
    as it was, and the setup paths change it only by what [setCredentials]
    stores. *)
Theorem session_baseURL_invariant :
  session initial_world = {| email := ""; apiToken := ""; baseURL := "" |}
  /\ (forall st : Phase * World, reachable st -> session_invariant (snd st))
  /\ (forall st : Phase * World,
        reachable st ->
        session (snd (step st)) = session (snd st)
        \/ stored_by_setCredentials (session (snd (step st))))
  /\ (forall (e t : string) (w : World),
        session (snd (setCredentials e t w))
        = {| email := e; apiToken := t;
             baseURL := generateBaseURLFromEmail e |})
  /\ (forall path options, keeps_session (makeJiraRequest path options))
  /\ keeps_session getCurrentUser
  /\ keeps_session getProjectsList
  /\ (forall v, keeps_session (getProject v))
  /\ (forall v n, keeps_session (getIssuesList v n))
  /\ (forall v, keeps_session (getIssue v))
  /\ (forall k s d t, keeps_session (createIssue k s d t))
  /\ (forall v, keeps_session (deleteIssue v))
  /\ keeps_session checkCredentials
  /\ keeps_session selectProject
  /\ (forall issues k, keeps_session (selectIssueFromList issues k))
  /\ keeps_session selectIssueFromProject
  /\ (forall k, keeps_session (displayIssue k))
  /\ keeps_session selectAndDisplayIssue
  /\ keeps_session createNewIssue
  /\ keeps_session deleteSelectedIssue
  /\ keeps_session mainMenu_pass
  /\ sets_credentials_only useEnvCredentials
  /\ sets_credentials_only enterCredentialsManually
  /\ sets_credentials_only setupMenu_pass.
Proof.
  split; [reflexivity|]. split.
  { intros st H. right. now apply reachable_session. }
  split; [intros st _; apply step_session|].
  split; [reflexivity|].
  repeat match goal with |- _ /\ _ => split end;
    auto using only_useEnvCredentials, only_enterCredentialsManually,
      only_setupMenu_pass, keeps_mainMenu_pass with session.
Qed.

(* ================================================================== *)
(** ** Further properties: the request wrapper *)

(** X1. [makeJiraRequest] never throws.  Its result is a success exactly
    when the transport resolves; the data is then the response body, except
    for a DELETE, where it is [null] whatever the body was. *)
Theorem makeJiraRequest_outcome (path : string) (options : Options) (w : World) :
  exists r : Result,
    fst (makeJiraRequest path options w) = Ret r
    /\ (success r = true <->
        exists d, axios (requests w) (request_for (session w) path options)
                  = Resolved d)
    /\ (forall d,
          axios (requests w) (request_for (session w) path options)
          = Resolved d ->
          r = Success (match opt_method options with
                       | Some DELETE => DNull
                       | _ => d
                       end)).
Proof.
  rewrite makeJiraRequest_run. cbv zeta. eexists. split; [reflexivity|].
  destruct (axios (requests w) (request_for (session w) path options))
    as [d|e] eqn:Hax.
  - split.
    + split; [intros _; now exists d|].
      intros _. now destruct (method _).
    + intros d' H. injection H as <-.
      destruct options as [[[| | |]|] [body|]]; reflexivity.
  - split.
    + split; [discriminate|]. intros [d H]. discriminate H.
    + intros d H. discriminate H.
Qed.

(** X2. [makeJiraRequest] hands exactly one configuration to the
    transport and touches nothing else.  The URL is the base URL, the API
    root and the path; the method is the one asked for, GET when none is;
    the email and the token are the Basic credentials; [Accept] is always
    sent.  The body and the [Content-Type] header are sent only when a
    body is supplied and the method is POST or PUT: a body given with a
    GET or a DELETE is dropped. *)
Theorem makeJiraRequest_request (path : string) (options : Options) (w : World) :
  exists c : Config,
    snd (makeJiraRequest path options w) = sent w c
    /\ url c = baseURL (session w) ++ "/rest/api/3" ++ path
    /\ method c = match opt_method options with Some m => m | None => GET end
    /\ auth_username c = email (session w)
    /\ auth_password c = apiToken (session w)
    /\ In ("Accept", "application/json") (headers c)
    /\ (forall body,
          config_data c = Some body <->
          opt_body options = Some body
          /\ (method c = POST \/ method c = PUT))
    /\ (In ("Content-Type", "application/json") (headers c) <->
        config_data c <> None).
Proof.
  rewrite makeJiraRequest_run. cbv zeta. eexists. split; [reflexivity|].
  destruct options as [[[| | |]|] [body|]]; cbn;
    repeat split; auto; try discriminate; try congruence; try tauto;
    try (intros [H _]; congruence);
    try (intros [_ [H|H]]; discriminate H);
    try (intros [H|[H|[]]]; discriminate H);
    try (intros [H|[]]; discriminate H);
    try (intro H; exfalso; now apply H);
    try (intro H; injection H as <-; split; [reflexivity|auto]).
Qed.

(** Computations that return. *)
Lemma returns_ret {A : Type} (a : A) : returns (ret a).
Proof. intro w. now exists a. Qed.

Lemma returns_bind {A B : Type} (m : M A) (k : A -> M B) :
  returns m -> (forall a, returns (k a)) -> returns (bind m k).
Proof.
  intros Hm Hk w. unfold bind. destruct (Hm w) as [a Ha].
  destruct (m w) as [[a'|e] w']; simpl in Ha; [|discriminate Ha].
  apply Hk.
Qed.

Lemma returns_try_catch {A : Type} (m : M A) (h : Error -> M A) :
  (forall e, returns (h e)) -> returns (try_catch m h).
Proof.
  intros Hh w. unfold try_catch.
  destruct (m w) as [[a|e] w']; [now exists a|apply Hh].
Qed.

Lemma returns_get_session : returns get_session.
Proof. intro w. now eexists. Qed.

Lemma returns_question : returns question.
Proof. intro w. now eexists. Qed.

Lemma returns_makeJiraRequest (path : string) (options : Options) :
  returns (makeJiraRequest path options).
Proof. intro w. rewrite makeJiraRequest_run. now eexists. Qed.

Create HintDb returns discriminated.

#[local] Hint Resolve returns_ret returns_get_session returns_question
  returns_makeJiraRequest : returns.

(** Walks through a computation that returns at every step. *)
Ltac returning :=
  repeat first
    [ solve [auto with returns]
    | apply returns_try_catch; intro
    | apply returns_bind; [|intro]
    | match goal with
      | |- returns (if ?b then _ else _) => destruct b
      | |- returns (match ?x with _ => _ end) => destruct x
      | |- returns (let _ := _ in _) => cbv zeta
      end ].

Lemma returns_api :
  returns getCurrentUser /\ returns getProjectsList
  /\ (forall v, returns (getProject v))
  /\ (forall v n, returns (getIssuesList v n))
  /\ (forall v, returns (getIssue v))
  /\ (forall k s d t, returns (createIssue k s d t))
  /\ (forall v, returns (deleteIssue v)).
Proof.
  assert (Hp : forall v, returns (getProject v))
    by (intro v; unfold getProject; returning).
  repeat split; try exact Hp; intros;
    unfold getCurrentUser, getProjectsList, getIssuesList, getIssue,
      createIssue, deleteIssue; cbv zeta; returning.
Qed.

(* ================================================================== *)
(** ** Further properties: the menus never crash on a flow *)

Lemma returns_selectIssueFromList (issues : list Issue.t) (projectKey : string) :
  returns (selectIssueFromList issues projectKey).
Proof. unfold selectIssueFromList. returning. Qed.

Lemma returns_flows :
  returns selectProject /\ returns selectIssueFromProject
  /\ (forall k, returns (displayIssue k))
  /\ returns selectAndDisplayIssue
  /\ returns createNewIssue /\ returns deleteSelectedIssue.
Proof.
  assert (H1 : returns selectProject)
    by (unfold selectProject; returning).
  assert (H2 : returns selectIssueFromProject)
    by (unfold selectIssueFromProject; returning).
  assert (H3 : forall k, returns (displayIssue k))
    by (intro k; unfold displayIssue; returning).
  repeat split; auto;
    unfold selectAndDisplayIssue, createNewIssue, deleteSelectedIssue;
    returning.
Qed.

(** X3. Whatever the transport answers and whatever the user types, the
    three flows of the main menu and one pass of the menu itself return:
    every exception a malformed response body raises inside them is caught
    by a flow's own [catch].  So a step taken in the main menu stays there
    or exits; it never ends the process with an error. *)
Theorem mainMenu_never_throws :
  returns selectAndDisplayIssue
  /\ returns createNewIssue
  /\ returns deleteSelectedIssue
  /\ returns mainMenu_pass
  /\ (forall w : World,
        fst (step (InMainMenu, w)) = InMainMenu
        \/ fst (step (InMainMenu, w)) = Exited).
Proof.
  destruct returns_flows as [_ [_ [_ [Hg [Hc Hd]]]]].
  assert (Hm : returns mainMenu_pass)
    by (unfold mainMenu_pass; returning).
  repeat split; auto.
  intro w. cbn [step]. destruct (Hm w) as [b Hb].
  destruct (mainMenu_pass w) as [[[|]|e] w']; simpl in *;
    [now right | now left | discriminate Hb].
Qed.

Lemma checkCredentials_null_body (w : World) (u : JiraData) :
  let c1 := request_for (session w) "/myself" no_options in
  let c2 := request_for (session w) "/project" no_options in
  has_credentials w ->
  axios (requests w) c1 = Resolved u ->
  axios (requests w ++ [c1]) c2 = Resolved DNull ->
  checkCredentials w
  = (Throw (TypeError "Cannot read properties of null"), sent (sent w c1) c2).
Proof.
  intros c1 c2 [He Ht] H1 H2.
  unfold checkCredentials, bind, get_session.
  apply truthy_Some_iff in He. apply truthy_Some_iff in Ht.
  rewrite He, Ht. cbn [negb orb].
  unfold getCurrentUser. rewrite makeJiraRequest_run. cbv zeta.
  fold c1. rewrite H1. change (method c1) with GET. cbv iota.
  cbn [success negb].
  unfold getProjectsList. rewrite makeJiraRequest_run. cbv zeta.
  cbn [sent session requests]. fold c2. rewrite H2.
  change (method c2) with GET. reflexivity.
Qed.

(** X4. [checkCredentials] has no [catch]: with both credentials set, when
    the user call resolves and the project call resolves with a [null]
    body, reading [data.length] throws.  Nothing between there and [main]
    catches it: when the user chooses manual entry and types an email and
    a token that are not blank, such a transport ends the process, after
    the two requests and with the credentials stored. *)
Theorem setup_crashes_on_null_body (w0 : World) (u : JiraData) :
  let e := JS.trim (answers (S (lines_read w0))) in
  let t := JS.trim (answers (S (S (lines_read w0)))) in
  let s := {| email := e; apiToken := t;
              baseURL := generateBaseURLFromEmail e |} in
  let c1 := request_for s "/myself" no_options in
  let c2 := request_for s "/project" no_options in
  let w := {| session := s; requests := requests w0;
              lines_read := 3 + lines_read w0 |} in
  JS.trim (answers (lines_read w0)) = "2" ->
  e <> "" -> t <> "" ->
  axios (requests w0) c1 = Resolved u ->
  axios (requests w0 ++ [c1]) c2 = Resolved DNull ->
  (exists err, checkCredentials w = (Throw err, sent (sent w c1) c2))
  /\ step (InSetupMenu, w0) = (Crashed, sent (sent w c1) c2).
Proof.
  intros e t s c1 c2 w Hchoice He Ht H1 H2.
  assert (Hthrow := checkCredentials_null_body w u (conj He Ht) H1 H2).
  split; [eexists; exact Hthrow|].
  cbn [step]. unfold setupMenu_pass, bind, question at 1.
  cbv zeta. rewrite Hchoice. cbn [String.eqb Ascii.eqb Bool.eqb].
  unfold enterCredentialsManually, bind, question.
  cbn [lines_read session requests].
  fold e t.
  apply truthy_Some_iff in He. apply truthy_Some_iff in Ht.
  rewrite He, Ht. cbn [negb orb setCredentials session requests lines_read].
  fold s. change (S (S (S (lines_read w0)))) with (3 + lines_read w0).
  fold w. now rewrite Hthrow.
Qed.

(* ================================================================== *)
(** ** Further properties: what the flows request *)

Lemma emits_nothing {A : Type} (Q : Session -> Config -> Prop) (m : M A) :
  (forall w, session (snd (m w)) = session w
             /\ requests (snd (m w)) = requests w) ->
  emits Q m.
Proof.
  intros H w. destruct (H w) as [Hs Hr]. split; [exact Hs|].
  exists []. rewrite Hr, app_nil_r. now split.
Qed.

Lemma emits_ret {A : Type} Q (a : A) : emits Q (ret a).
Proof. apply emits_nothing. now intro w. Qed.

Lemma emits_throw {A : Type} Q (e : Error) : emits Q (@throw A e).
Proof. apply emits_nothing. now intro w. Qed.

Lemma emits_get_session Q : emits Q get_session.
Proof. apply emits_nothing. now intro w. Qed.

Lemma emits_question Q : emits Q question.
Proof. apply emits_nothing. now intro w. Qed.

Lemma emits_then {A : Type} Q (m : M A) (w : World) (next : World -> World) :
  emits Q m ->
  (forall w', session (next w') = session w'
              /\ exists l, requests (next w') = (requests w' ++ l)%list
                           /\ Forall (Q (session w')) l) ->
  session (next (snd (m w))) = session w
  /\ exists l, requests (next (snd (m w))) = (requests w ++ l)%list
               /\ Forall (Q (session w)) l.
Proof.
  intros Hm Hn. destruct (Hm w) as [Hs [l [Hr Hl]]].
  destruct (Hn (snd (m w))) as [Hs' [l' [Hr' Hl']]].
  split; [congruence|]. exists (l ++ l')%list. split.
  - rewrite Hr', Hr. now rewrite app_assoc.
  - apply Forall_app. split; [exact Hl|]. now rewrite <- Hs.
Qed.

Lemma emits_bind {A B : Type} Q (m : M A) (k : A -> M B) :
  emits Q m -> (forall a, emits Q (k a)) -> emits Q (bind m k).
Proof.
  intros Hm Hk w. unfold bind.
  destruct (m w) as [[a|e] w'] eqn:Hmw.
  - pose proof (emits_then Q m w (fun w' => snd (k a w')) Hm (Hk a)) as H.
    now rewrite Hmw in H.
  - specialize (Hm w). now rewrite Hmw in Hm.
Qed.

Lemma emits_try_catch {A : Type} Q (m : M A) (h : Error -> M A) :
  emits Q m -> (forall e, emits Q (h e)) -> emits Q (try_catch m h).
Proof.
  intros Hm Hh w. unfold try_catch.
  destruct (m w) as [[a|e] w'] eqn:Hmw.
  - specialize (Hm w). now rewrite Hmw in Hm.
  - pose proof (emits_then Q m w (fun w' => snd (h e w')) Hm (Hh e)) as H.
    now rewrite Hmw in H.
Qed.

Lemma emits_makeJiraRequest (Q : Session -> Config -> Prop)
    (path : string) (options : Options) :
  (forall s, Q s (request_for s path options)) ->
  emits Q (makeJiraRequest path options).
Proof.
  intros HQ w. rewrite makeJiraRequest_run. cbv zeta. split; [reflexivity|].
  eexists. split; [reflexivity|]. constructor; [apply HQ|constructor].
Qed.

Lemma emits_read (path : string) :
  emits read_from_session (makeJiraRequest path no_options).
Proof. apply emits_makeJiraRequest. intro s. now exists path. Qed.

Lemma emits_any (path : string) (options : Options) :
  emits from_session (makeJiraRequest path options).
Proof. apply emits_makeJiraRequest. intro s. now exists path, options. Qed.

Lemma emits_weaken {A : Type} (Q Q' : Session -> Config -> Prop) (m : M A) :
  (forall s c, Q s c -> Q' s c) -> emits Q m -> emits Q' m.
Proof.
  intros HQ Hm w. destruct (Hm w) as [Hs [l [Hr Hl]]].
  split; [exact Hs|]. exists l. split; [exact Hr|].
  eapply Forall_impl; [|exact Hl]. apply HQ.
Qed.

Lemma read_is_from_session (s : Session) (c : Config) :
  read_from_session s c -> from_session s c.
Proof. intros [path ->]. now exists path, no_options. Qed.

Create HintDb emits discriminated.

#[local] Hint Resolve emits_ret emits_throw emits_get_session emits_question
  emits_read emits_any : emits.

(** Walks through a computation, collecting what it requests. *)
Ltac emitting :=
  repeat first
    [ solve [auto with emits]
    | apply emits_bind; [|intro]
    | apply emits_try_catch; [|intro]
    | match goal with
      | |- emits _ (if ?b then _ else _) => destruct b
      | |- emits _ (match ?x with _ => _ end) => destruct x
      | |- emits _ (let _ := _ in _) => cbv zeta
      end ].

Lemma reads_api :
  emits read_from_session getCurrentUser
  /\ emits read_from_session getProjectsList
  /\ (forall v, emits read_from_session (getProject v))
  /\ (forall v n, emits read_from_session (getIssuesList v n))
  /\ (forall v, emits read_from_session (getIssue v)).
Proof.
  repeat match goal with |- _ /\ _ => split end; intros;
    unfold getCurrentUser, getProjectsList, getProject, getIssuesList,
      getIssue; cbv zeta; emitting.
Qed.

Lemma emits_data Q (d : JiraData) :
  emits Q (data_length d) /\ emits Q (data_forEach d)
  /\ emits Q (data_issues d) /\ emits Q (data_display d).
Proof.
  unfold data_length, data_forEach, data_issues, data_display.
  repeat match goal with |- _ /\ _ => split end; emitting.
Qed.

Lemma reads_checkCredentials : emits read_from_session checkCredentials.
Proof.
  destruct reads_api as [Hu [Hl _]].
  unfold checkCredentials. emitting. apply emits_data.
Qed.

Lemma reads_selectProject : emits read_from_session selectProject.
Proof.
  destruct reads_api as [_ [Hl _]].
  unfold selectProject. emitting; apply emits_data.
Qed.

Lemma reads_selectIssueFromList (issues : list Issue.t) (k : string) :
  emits read_from_session (selectIssueFromList issues k).
Proof. unfold selectIssueFromList. emitting. Qed.

Lemma reads_selectIssueFromProject :
  emits read_from_session selectIssueFromProject.
Proof.
  destruct reads_api as [_ [_ [_ [Hi _]]]].
  pose proof reads_selectProject. pose proof reads_selectIssueFromList.
  unfold selectIssueFromProject. emitting. apply emits_data.
Qed.

Lemma reads_displayIssue (k : string) : emits read_from_session (displayIssue k).
Proof.
  destruct reads_api as [_ [_ [_ [_ Hg]]]].
  unfold displayIssue. emitting. apply emits_data.
Qed.

(** X5. Checking the credentials, choosing a project, choosing an issue
    and showing one only read: each keeps the session and every request it
    makes is a GET built from that session, with the session's email and
    token, under the session's base URL, with no body and no
    [Content-Type]. *)
Theorem browsing_only_reads :
  emits read_from_session checkCredentials
  /\ emits read_from_session selectProject
  /\ emits read_from_session selectIssueFromProject
  /\ (forall k, emits read_from_session (displayIssue k))
  /\ emits read_from_session selectAndDisplayIssue
  /\ (forall (s : Session) (c : Config),
        read_from_session s c ->
        method c = GET /\ config_data c = None
        /\ headers c = [("Accept", "application/json")]
        /\ auth_username c = email s /\ auth_password c = apiToken s
        /\ exists path, url c = baseURL s ++ "/rest/api/3" ++ path).
Proof.
  pose proof reads_selectIssueFromProject as Hs.
  pose proof reads_displayIssue as Hd.
  repeat match goal with |- _ /\ _ => split end;
    auto using reads_checkCredentials, reads_selectProject.
  - unfold selectAndDisplayIssue. emitting.
  - intros s c [path ->]. repeat split. now exists path.
Qed.

(* ================================================================== *)
(** ** Further properties: what is selected, what is deleted *)

Lemma pick_In {A : Type} (items : list A) (choice : string) (x : A) :
  pick items choice = Some x -> In x items.
Proof.
  unfold pick. destruct (option_map _ (JS.parseInt choice)) as [i|];
    [|discriminate].
  destruct ((i <? 0)%Z || (i >=? Z.of_nat (length items))%Z); [discriminate|].
  apply nth_error_In.
Qed.

Lemma selectIssueFromProject_run (w : World) :
  selectIssueFromProject w =
  match selectProject w with
  | (Ret (Some project), w1) =>
      match getIssuesList (Some (Project.key project)) None w1 with
      | (Ret (Success (DSearch issues)), w2) =>
          selectIssueFromList issues (Project.key project) w2
      | (_, w2) => (Ret None, w2)
      end
  | (_, w1) => (Ret None, w1)
  end.
Proof.
  unfold selectIssueFromProject, try_catch, bind.
  destruct (selectProject w) as [[[project|]|e] w1]; try reflexivity.
  destruct (getIssuesList (Some (Project.key project)) None w1)
    as [[[[| |issues|]|msg]|e] w2]; try reflexivity.
  rewrite selectIssueFromList_run. now destruct issues.
Qed.

(** X6. A selection never makes anything up.  The project
    [selectProject] returns is an entry of the array the project listing
    just resolved with; the issue [selectIssueFromProject] returns is an
    entry of the [issues] the search for that project's key just resolved
    with, and one answer was read for each of the two choices. *)
Theorem selection_is_listed :
  (forall (w w1 : World) (project : Project.t),
      selectProject w = (Ret (Some project), w1) ->
      exists projects,
        axios (requests w) (request_for (session w) "/project" no_options)
        = Resolved (DProjects projects)
        /\ In project projects
        /\ w1 = answered
                  (sent w (request_for (session w) "/project" no_options)))
  /\ (forall (w w3 : World) (issue : Issue.t),
        selectIssueFromProject w = (Ret (Some issue), w3) ->
        exists project w1 issues w2,
          selectProject w = (Ret (Some project), w1)
          /\ getIssuesList (Some (Project.key project)) None w1
             = (Ret (Success (DSearch issues)), w2)
          /\ In issue issues
          /\ w3 = answered w2).
Proof.
  split.
  - intros w w1 project H. rewrite selectProject_run in H. cbv zeta in H.
    destruct (axios _ _) as [[|[|p ps]| |]|e]; try discriminate H.
    injection H as Hp <-. exists (p :: ps).
    repeat split. now apply pick_In in Hp.
  - intros w w3 issue H. rewrite selectIssueFromProject_run in H.
    destruct (selectProject w) as [[[project|]|e] w1] eqn:Hp;
      try discriminate H.
    destruct (getIssuesList (Some (Project.key project)) None w1)
      as [[[[| |issues|]|msg]|e] w2] eqn:Hl; try discriminate H.
    rewrite selectIssueFromList_run in H.
    destruct issues as [|i issues]; [discriminate H|].
    injection H as Hi <-. exists project, w1, (i :: issues), w2.
    split; [reflexivity|]. split; [exact Hl|].
    split; [|reflexivity]. eapply pick_In. exact Hi.
Qed.

Lemma deleteSelectedIssue_run (w : World) :
  deleteSelectedIssue w =
  match selectIssueFromProject w with
  | (Ret (Some issue), w1) =>
      if is_yes (answers (lines_read w1))
      then (Ret tt, snd (deleteIssue (Some (Issue.key issue)) (answered w1)))
      else (Ret tt, answered w1)
  | (_, w1) => (Ret tt, w1)
  end.
Proof.
  unfold deleteSelectedIssue, try_catch, bind.
  destruct (selectIssueFromProject w) as [[[issue|]|e] w1]; try reflexivity.
  unfold question. rewrite toLowerCase_yes. fold (answered w1).
  destruct (is_yes (answers (lines_read w1))); [|reflexivity].
  cbn [negb].
  destruct (deleteIssue_returns (Some (Issue.key issue)) (answered w1))
    as [r [w2 Hdel]].
  now rewrite Hdel.
Qed.

(** X7. The delete flow always returns, and on top of the read-only
    requests of the selection it makes at most one more request: the
    DELETE of [/issue/{key}] for the issue that was selected, and only when
    the answer to the confirmation was "yes" in some mix of cases.  No
    other path through the flow reaches [deleteIssue]. *)
Theorem deleteSelectedIssue_deletes_only_selected (w : World) :
  exists (w' : World) (reads deletes : list Config),
    deleteSelectedIssue w = (Ret tt, w')
    /\ session w' = session w
    /\ requests w' = (requests w ++ reads ++ deletes)%list
    /\ Forall (read_from_session (session w)) reads
    /\ (deletes = []
        \/ exists (issue : Issue.t) (w1 : World),
             selectIssueFromProject w = (Ret (Some issue), w1)
             /\ is_yes (answers (lines_read w1)) = true
             /\ deletes
                = [request_for (session w) ("/issue/" ++ Issue.key issue)
                     {| opt_method := Some DELETE; opt_body := None |}]).
Proof.
  destruct (reads_selectIssueFromProject w) as [Hs [reads [Hr Hreads]]].
  rewrite deleteSelectedIssue_run.
  destruct (selectIssueFromProject w) as [[[issue|]|e] w1] eqn:Hsel;
    cbn [snd] in Hs, Hr.
  - destruct (is_yes (answers (lines_read w1))) eqn:Hyes.
    + unfold deleteIssue.
      destruct (JS.truthy (Some (Issue.key issue))) eqn:Hkey; cbn [negb].
      * rewrite makeJiraRequest_run. cbv zeta.
        eexists _, reads, [_]. split; [reflexivity|].
        cbn [snd sent answered session requests]. rewrite Hs.
        split; [reflexivity|]. split; [now rewrite Hr, app_assoc|].
        split; [exact Hreads|]. right. exists issue, w1.
        split; [reflexivity|]. split; [exact Hyes|reflexivity].
      * exists (answered w1), reads, []. split; [reflexivity|].
        cbn [answered session requests]. rewrite app_nil_r.
        repeat split; auto.
    + exists (answered w1), reads, []. split; [reflexivity|].
      cbn [answered session requests]. rewrite app_nil_r.
      repeat split; auto.
  - exists w1, reads, []. split; [reflexivity|].
    rewrite app_nil_r. repeat split; auto.
  - exists w1, reads, []. split; [reflexivity|].
    rewrite app_nil_r. repeat split; auto.
Qed.

(* ================================================================== *)
(** ** Further properties: trimmed arguments *)

Lemma trimStart_split (s : string) :
  exists pre, s = pre ++ JS.trimStart s
              /\ all_space pre = true
              /\ starts_clean (JS.trimStart s) = true.
Proof.
  induction s as [|c s' [pre [H1 [H2 H3]]]].
  - now exists "".
  - cbn [JS.trimStart]. destruct (JS.is_space c) eqn:Hc.
    + exists (String c pre). cbn [append all_space]. rewrite Hc, H2.
      repeat split; [now f_equal | exact H3].
    + exists "". cbn [append all_space starts_clean]. now rewrite Hc.
Qed.

Lemma trimEnd_split (s : string) :
  exists post, s = JS.trimEnd s ++ post
               /\ all_space post = true
               /\ ends_clean (JS.trimEnd s) = true
               /\ (starts_clean s = true -> starts_clean (JS.trimEnd s) = true).
Proof.
  induction s as [|c s' [post [H1 [H2 [H3 H4]]]]].
  - now exists "".
  - cbn [JS.trimEnd]. destruct (JS.trimEnd s') as [|d r] eqn:Hr.
    + destruct (JS.is_space c) eqn:Hc.
      * exists (String c post). cbn [append all_space]. rewrite Hc, H2.
        cbn [append] in H1. repeat split; auto. now f_equal.
      * exists post. cbn [append ends_clean starts_clean]. rewrite Hc.
        cbn [append] in H1. repeat split; auto. now f_equal.
    + exists post. cbn [append]. cbn [append] in H1.
      repeat split; auto. now f_equal.
Qed.

Lemma trimStart_clean (s : string) :
  starts_clean s = true -> JS.trimStart s = s.
Proof.
  destruct s as [|c s']; [reflexivity|]. cbn [starts_clean JS.trimStart].
  now destruct (JS.is_space c).
Qed.

Lemma trimEnd_clean (s : string) : ends_clean s = true -> JS.trimEnd s = s.
Proof.
  induction s as [|c s' IH]; [reflexivity|].
  cbn [JS.trimEnd]. destruct s' as [|d s''].
  - cbn [JS.trimEnd ends_clean]. now destruct (JS.is_space c).
  - intro H. rewrite IH by exact H. reflexivity.
Qed.

(** What [trim] keeps: the text between the leading and the trailing
    white space. *)
Lemma trim_split (s : string) :
  exists pre post,
    s = pre ++ JS.trim s ++ post
    /\ all_space pre = true /\ all_space post = true
    /\ starts_clean (JS.trim s) = true /\ ends_clean (JS.trim s) = true.
Proof.
  unfold JS.trim.
  destruct (trimStart_split s) as [pre [H1 [H2 H3]]].
  destruct (trimEnd_split (JS.trimStart s)) as [post [H4 [H5 [H6 H7]]]].
  exists pre, post. repeat split; auto. now rewrite <- H4.
Qed.

Lemma trim_idempotent (s : string) : JS.trim (JS.trim s) = JS.trim s.
Proof.
  destruct (trim_split s) as [pre [post [_ [_ [_ [H1 H2]]]]]].
  unfold JS.trim at 1. now rewrite trimStart_clean, trimEnd_clean.
Qed.

(** X8. For a key that is not blank, [getProject] and [getIssue] make
    exactly one GET.  Its path ends with the key without the white space
    around it: the key is [pre ++ k ++ post] with [pre] and [post] white
    space only, [k] not empty and clean at both ends, and the paths are
    "/project/k" and "/issue/k".  The key is put into the path as it is,
    without URI encoding. *)
Theorem getProject_getIssue_trimmed_path (key : string) (w : World) :
  all_space key = false ->
  exists pre k post,
    key = pre ++ k ++ post
    /\ all_space pre = true /\ all_space post = true
    /\ k <> "" /\ starts_clean k = true /\ ends_clean k = true
    /\ snd (getProject (Some key) w)
       = sent w (request_for (session w) ("/project/" ++ k) no_options)
    /\ snd (getIssue (Some key) w)
       = sent w (request_for (session w) ("/issue/" ++ k) no_options).
Proof.
  intro Hk. destruct (trim_split key) as [pre [post [H1 [H2 [H3 [H4 H5]]]]]].
  exists pre, (JS.trim key), post.
  assert (Hne : JS.trim key <> "").
  { intro H. rewrite <- trim_empty in Hk. rewrite H in Hk. discriminate Hk. }
  repeat split; auto.
  - unfold getProject. rewrite (not_blank _ Hk).
    now rewrite makeJiraRequest_run.
  - unfold getIssue. rewrite (not_blank _ Hk).
    now rewrite makeJiraRequest_run.
Qed.

Lemma formatDescriptionForJira_null (description : option string) :
  formatDescriptionForJira description = None <->
  description = None \/ exists s, description = Some s /\ all_space s = true.
Proof.
  unfold formatDescriptionForJira. fold (blank description).
  destruct description as [s|].
  - rewrite blank_Some, trim_empty. destruct (all_space s) eqn:Hs.
    + split; [intros _; right; now exists s|reflexivity].
    + split; [discriminate|].
      intros [H|[s' [H1 H2]]]; [discriminate H|].
      injection H1 as <-. congruence.
  - split; [now left|reflexivity].
Qed.

(** X9. [formatDescriptionForJira] gives [null] exactly for a description
    that is missing or holds only white space.  Otherwise it gives a
    version-1 "doc" with one "paragraph" holding one "text" node, whose
    text is the description without the white space around it: never
    empty, clean at both ends, and unchanged by trimming again. *)
Theorem formatDescriptionForJira_cases (description : option string) :
  (formatDescriptionForJira description = None <->
   description = None \/ exists s, description = Some s /\ all_space s = true)
  /\ (forall doc,
        formatDescriptionForJira description = Some doc ->
        exists s t pre post,
          description = Some s
          /\ s = pre ++ t ++ post
          /\ all_space pre = true /\ all_space post = true
          /\ t <> "" /\ starts_clean t = true /\ ends_clean t = true
          /\ JS.trim t = t
          /\ doc = {| doc_type := "doc"; version := 1;
                      content :=
                        [ {| par_type := "paragraph";
                             par_content :=
                               [ {| text_type := "text"; text := t |} ] |} ] |}).
Proof.
  unfold formatDescriptionForJira. fold (blank description).
  destruct description as [s|].
  - rewrite blank_Some, trim_empty.
    destruct (all_space s) eqn:Hs; split.
    + split; [intros _; right; now exists s|reflexivity].
    + discriminate.
    + split; [discriminate|].
      intros [H|[s' [H1 H2]]]; [discriminate H|].
      injection H1 as <-. congruence.
    + intros doc H. injection H as <-.
      destruct (trim_split s) as [pre [post [H1 [H2 [H3 [H4 H5]]]]]].
      exists s, (JS.trim s), pre, post. cbn [JS.str].
      repeat split; auto using trim_idempotent.
      intro H. rewrite <- trim_empty in Hs. rewrite H in Hs. discriminate Hs.
  - split; [split; [now left|reflexivity]|discriminate].
Qed.

(* ================================================================== *)
(** ** Further properties: creating an issue *)

(** X10. When the project check succeeds, [createIssue] makes exactly two
    requests, the GET of "/project/{trimmed key}" and then the POST of
    "/issue", and returns what the POST gives.  The POST carries a body and
    the [Content-Type] header; the body names the project by the key as it
    was passed (not trimmed), the summary as passed, the issue type (Task
    when left out) and the formatted description, which is absent for a
    missing or blank description. *)
Theorem createIssue_creates_after_check
    (projectKey summary : string) (desc issueType : option string)
    (w : World) (d : JiraData) :
  let check := request_for (session w) ("/project/" ++ JS.trim projectKey)
                 no_options in
  let body :=
    {| fields := {| project_key := projectKey;
                    summary := summary;
                    issuetype_name :=
                      match issueType with Some t => t | None => "Task" end;
                    description := formatDescriptionForJira desc |} |} in
  let create := request_for (session w) "/issue"
                  {| opt_method := Some POST; opt_body := Some body |} in
  all_space projectKey = false -> summary <> "" ->
  axios (requests w) check = Resolved d ->
  createIssue (Some projectKey) (Some summary) desc issueType w
  = (Ret (match axios (requests w ++ [check]) create with
          | Resolved created => Success created
          | Rejected e => Failure (formatJiraError e)
          end),
     sent (sent w check) create)
  /\ method create = POST
  /\ config_data create = Some body
  /\ In ("Content-Type", "application/json") (headers create)
  /\ (description (fields body) = None <->
      desc = None \/ exists s, desc = Some s /\ all_space s = true).
Proof.
  intros check body create Hkey Hsum Hcheck.
  split; [|split; [reflexivity|split; [reflexivity|split]]].
  - unfold createIssue, bind.
    assert (Hk : JS.truthy (Some projectKey) = true)
      by (apply truthy_Some_iff; now apply all_space_not_empty).
    apply truthy_Some_iff in Hsum. rewrite Hk, Hsum. cbn [negb orb].
    unfold getProject. rewrite (not_blank _ Hkey). cbn [JS.str].
    rewrite makeJiraRequest_run. cbv zeta. fold check. rewrite Hcheck.
    change (method check) with GET. cbv iota.
    rewrite makeJiraRequest_run. cbv zeta.
    cbn [sent session requests]. fold body. fold create.
    change (method create) with POST. reflexivity.
  - cbn. now right; left.
  - apply formatDescriptionForJira_null.
Qed.

(** X11. The create flow asks for the summary and the description
    before it looks at either: once a project is selected it reads two
    answers, and when the summary holds only white space it stops there
    without a request.  Otherwise it calls [createIssue] with the selected
    project's key, the trimmed summary, the trimmed description and no
    issue type, and returns whatever that call or the display of its
    result does. *)
Theorem createNewIssue_requires_summary
    (w w1 : World) (project : Project.t)
    (Hselected : selectProject w = (Ret (Some project), w1)) :
  let summary := answers (lines_read w1) in
  let description := answers (S (lines_read w1)) in
  (all_space summary = true ->
     createNewIssue w = (Ret tt, answered (answered w1)))
  /\ (all_space summary = false ->
        createNewIssue w
        = (Ret tt,
           snd (createIssue (Some (Project.key project))
                  (Some (JS.trim summary)) (Some (JS.trim description)) None
                  (answered (answered w1))))).
Proof.
  cbv zeta. split; intro Hs.
  - unfold createNewIssue, try_catch, bind. rewrite Hselected.
    unfold question. cbn [lines_read session requests].
    rewrite <- trim_empty in Hs.
    unfold JS.truthy. rewrite Hs. reflexivity.
  - unfold createNewIssue, try_catch. unfold bind at 1. rewrite Hselected.
    unfold bind at 1. unfold question at 1.
    unfold bind at 1. unfold question at 1.
    cbn [lines_read session requests].
    rewrite <- trim_empty in Hs. unfold JS.truthy at 1. rewrite Hs.
    cbn [negb]. unfold bind. fold (answered w1).
    change {| session := session w1; requests := requests w1;
              lines_read := S (S (lines_read w1)) |}
      with (answered (answered w1)).
    destruct returns_api as [_ [_ [_ [_ [_ [Hc _]]]]]].
    destruct (Hc (Some (Project.key project))
                (Some (JS.trim (answers (lines_read w1))))
                (Some (JS.trim (answers (S (lines_read w1))))) None
                (answered (answered w1))) as [r Hr].
    destruct (createIssue _ _ _ _ _) as [[r'|e] w2]; [|discriminate Hr].
    cbn [snd]. destruct r' as [[| | |]|msg]; reflexivity.
Qed.

(* ================================================================== *)
(** ** Further properties: the search query is escaped *)

Lemma all_chars_app (p : ascii -> bool) (a b : string) :
  all_chars p (a ++ b) = all_chars p a && all_chars p b.
Proof.
  induction a as [|c a' IH]; [reflexivity|].
  cbn [append all_chars]. now rewrite IH, andb_assoc.
Qed.

Lemma encoded_char_safe (c : ascii) :
  all_chars url_safe
    (if JS.unreserved c then String c ""
     else String.concat "" (map JS.percent (JS.utf8 c))) = true.
Proof. destruct c as [[] [] [] [] [] [] [] []]; vm_compute; reflexivity. Qed.

Lemma encodeURIComponent_safe (s : string) :
  all_chars url_safe (JS.encodeURIComponent s) = true.
Proof.
  induction s as [|c s' IH]; [reflexivity|].
  cbn [JS.encodeURIComponent]. rewrite all_chars_app, IH.
  now rewrite encoded_char_safe.
Qed.

Lemma string_of_uint_digits (d : Decimal.uint) :
  all_chars is_digit (NilEmpty.string_of_uint d) = true.
Proof. induction d; cbn [NilEmpty.string_of_uint all_chars]; auto. Qed.

Lemma decimal_digits (n : nat) : all_chars is_digit (JS.decimal n) = true.
Proof.
  unfold JS.decimal, NilZero.string_of_uint.
  destruct (Nat.to_uint n) eqn:H; try reflexivity;
    rewrite <- H at 1; cbn [NilEmpty.string_of_uint all_chars];
    now rewrite string_of_uint_digits.
Qed.

(** X12. The query [getIssuesList] puts into the URL cannot break out of
    its parameter.  For a key that is not blank the request path is
    "/search?jql=" ++ q ++ "&maxResults=" ++ n, where [q] holds only
    letters, digits, the marks [-_.!~*'()] and "%", so none of "&", "=",
    "?", "#", "/", "+" or a space whatever the key contains, and [n] holds
    only digits. *)
Theorem getIssuesList_query_is_escaped
    (projectKey : string) (maxResults : option nat) (w : World) :
  all_space projectKey = false ->
  exists q n,
    snd (getIssuesList (Some projectKey) maxResults w)
    = sent w (request_for (session w)
                ("/search?jql=" ++ q ++ "&maxResults=" ++ n) no_options)
    /\ all_chars url_safe q = true
    /\ all_chars is_digit n = true
    /\ n <> ""
    /\ (forall c, In c ["&"; "="; "?"; "#"; "/"; "+"; " "]%char ->
                  url_safe c = false).
Proof.
  intro Hk.
  exists (JS.encodeURIComponent
            ("project = " ++ JS.trim projectKey ++ " ORDER BY created ASC")),
         (JS.decimal (match maxResults with Some n => n | None => 50 end)).
  split; [|split; [apply encodeURIComponent_safe|split;
                   [apply decimal_digits|split]]].
  - unfold getIssuesList. rewrite (not_blank _ Hk).
    now rewrite makeJiraRequest_run.
  - unfold JS.decimal, NilZero.string_of_uint.
    destruct (Nat.to_uint _); discriminate.
  - intros c Hc. repeat (destruct Hc as [<-|Hc]; [reflexivity|]).
    destruct Hc.
Qed.

(* ================================================================== *)
(** ** Further properties: when the error text is empty *)

Lemma concat_empty (l : list string) :
  String.concat ", " l = "" <-> l = [] \/ l = [""].
Proof.
  destruct l as [|x [|y l']]; cbn [String.concat].
  - split; auto.
  - split; [intros ->; now right|]. intros [H|H]; [discriminate H|].
    now injection H.
  - split.
    + intro H. destruct x; discriminate H.
    + intros [H|H]; discriminate H.
Qed.

Lemma first_of_not_empty (l : list (option string)) (otherwise : string) :
  otherwise <> "" -> Forall (fun o => o <> Some "") l ->
  first_of l otherwise <> "".
Proof.
  intros Ho H. induction H as [|[m|] l Hm _ IH]; cbn [first_of]; auto.
  congruence.
Qed.

Lemma non_empty_not_empty (m : string) : non_empty m <> Some "".
Proof.
  unfold non_empty. destruct (String.eqb_spec m ""); [discriminate|congruence].
Qed.

Lemma first_of_cons (o : option string) (l : list (option string))
    (otherwise : string) :
  first_of (o :: l) otherwise
  = match o with Some m => m | None => first_of l otherwise end.
Proof. reflexivity. Qed.

(** X13. The message [formatJiraError] gives is empty in one situation
    only: the body has no first error message to use and it has an
    [errors] object that is empty or holds a single empty value.  In
    particular a body [{errorMessages: [], errors: {}}] gives the empty
    text whatever the status: the [errors] branch comes before the
    literals for 401, 403 and 404. *)
Theorem formatJiraError_empty (e : Error) :
  (formatJiraError e = "" <->
   rule_errorMessages e = None
   /\ exists b es,
        body_of e = Some b /\ errors b = Some es
        /\ (map snd es = [] \/ map snd es = [""]))
  /\ (forall (st : nat) (msg : option string),
        formatJiraError
          {| response :=
               Some {| status := st;
                       data := Some {| errorMessages := Some [];
                                       errors := Some [] |} |};
             message := msg |} = "").
Proof.
  split; [|reflexivity].
  rewrite formatJiraError_normalized. unfold normalized_error, rules.
  rewrite first_of_cons.
  destruct (rule_errorMessages e) as [m|] eqn:H1;
    [|rewrite first_of_cons].
  - split.
    + intros ->. exfalso. unfold rule_errorMessages in H1.
      destruct (body_of e) as [b|]; [|discriminate H1].
      destruct (errorMessages b) as [[|m l]|]; try discriminate H1.
      now apply non_empty_not_empty in H1.
    + intros [H _]. discriminate H.
  - unfold rule_errors. destruct (body_of e) as [b|] eqn:Hb.
    + destruct (errors b) as [es|] eqn:Hes.
      * split.
        -- intro H. split; [reflexivity|]. exists b, es.
           repeat split; auto. now apply concat_empty.
        -- intros [_ [b' [es' [H2 [H3 H4]]]]]. injection H2 as <-.
           rewrite Hes in H3. injection H3 as <-. now apply concat_empty.
      * split.
        -- intro H. exfalso. revert H. apply first_of_not_empty; [discriminate|].
           unfold rule_status, rule_message.
           repeat constructor;
             try (destruct (response e) as [r|]; [|discriminate];
                  destruct (_ =? _)%nat; discriminate).
           destruct (message e); [apply non_empty_not_empty|discriminate].
        -- intros [_ [b' [es' [H2 [H3 _]]]]]. injection H2 as <-.
           rewrite Hes in H3. discriminate H3.
    + split.
      * intro H. exfalso. revert H. apply first_of_not_empty; [discriminate|].
        unfold rule_status, rule_message.
        repeat constructor;
          try (destruct (response e) as [r|]; [|discriminate];
               destruct (_ =? _)%nat; discriminate).
        destruct (message e); [apply non_empty_not_empty|discriminate].
      * intros [_ [b' [es' [H2 _]]]]. discriminate H2.
Qed.

(* ================================================================== *)
(** ** Further properties: the number shown selects the entry *)

Lemma not_digit_no_value (c : ascii) :
  is_digit c = false -> JS.digit_of 10 c = None.
Proof.
  destruct c as [[] [] [] [] [] [] [] []]; vm_compute; intro H;
    try discriminate H; reflexivity.
Qed.

Lemma parse_digits_stop (d : Decimal.uint) (c : ascii) (rest : string) :
  JS.digit_of 10 c = None ->
  forall acc : Z,
    JS.parse_digits 10 (Some acc)
      (NilEmpty.string_of_uint d ++ String c rest)
    = JS.parse_digits 10 (Some acc) (NilEmpty.string_of_uint d).
Proof.
  intro Hc. induction d; intro acc;
    cbn [NilEmpty.string_of_uint append JS.parse_digits];
    [now rewrite Hc | ..];
    match goal with
    | |- context [JS.digit_of 10 ?a] =>
        let v := eval vm_compute in (JS.digit_of 10 a) in
        change (JS.digit_of 10 a) with v
    end;
    cbv iota beta; apply IHd.
Qed.

(** [parseInt] on a string that begins with a decimal digit. *)
Lemma parseInt_digit_start (c0 : ascii) (t : string) (v : nat) :
  JS.digit_of 10 c0 = Some (Z.of_nat v) ->
  (c0 = "0"%char -> starts_with_x t = false) ->
  JS.parseInt (String c0 t)
  = option_map (Z.mul 1) (JS.parse_digits 10 (Some (Z.of_nat v)) t).
Proof.
  intros Hd Hx.
  assert (H0 : c0 <> "0"%char ->
               JS.parseInt (String c0 t)
               = option_map (Z.mul 1) (JS.parse_digits 10 None (String c0 t))).
  { intro Hne. revert Hd Hne.
    destruct c0 as [[] [] [] [] [] [] [] []]; intros Hd Hne;
      try discriminate Hd; try reflexivity.
    now contradiction Hne. }
  destruct (Ascii.eqb_spec c0 "0") as [->|Hne].
  - specialize (Hx eq_refl). injection Hd as Hv.
    destruct t as [|c1 t'].
    + rewrite <- Hv. reflexivity.
    + cbn [starts_with_x] in Hx. apply orb_false_elim in Hx.
      destruct Hx as [H1 H2]. rewrite <- Hv. revert H1 H2.
      destruct c1 as [[] [] [] [] [] [] [] []]; intros H1 H2;
        try discriminate H1; try discriminate H2; reflexivity.
  - rewrite (H0 Hne). now rewrite (parse_digits_first c0 t v Hd).
Qed.

Lemma digit_not_x (d : Decimal.uint) (c : ascii) (rest : string) :
  starts_with_x (String c rest) = false ->
  starts_with_x (NilEmpty.string_of_uint d ++ String c rest) = false.
Proof. intro H. destruct d; auto. Qed.

Lemma parseInt_numeral_then (k : nat) (c : ascii) (rest : string) :
  is_digit c = false -> starts_with_x (String c rest) = false ->
  JS.parseInt (JS.decimal k ++ String c rest) = Some (Z.of_nat k).
Proof.
  intros Hc Hx. apply not_digit_no_value in Hc.
  unfold JS.decimal. rewrite <- (Unsigned.of_to k) at 2.
  generalize (Nat.to_uint k) as d. intro d. unfold Nat.of_uint.
  assert (Hgo : forall (c0 : ascii) (v : nat) (d' : Decimal.uint),
             JS.digit_of 10 c0 = Some (Z.of_nat v) ->
             JS.parseInt
               (String c0 (NilEmpty.string_of_uint d' ++ String c rest))
             = Some (Z.of_nat (Nat.of_uint_acc d' v))).
  { intros c0 v d' Hv.
    rewrite (parseInt_digit_start c0 _ v Hv)
      by (intros _; now apply digit_not_x).
    rewrite parse_digits_stop by exact Hc.
    rewrite parse_digits_uint. cbn [option_map]. now rewrite Z.mul_1_l. }
  destruct d as [|d|d|d|d|d|d|d|d|d|d];
    cbn [NilZero.string_of_uint NilEmpty.string_of_uint append
         Nat.of_uint_acc].
  - exact (Hgo "0"%char 0 Decimal.Nil eq_refl).
  - exact (Hgo "0"%char 0 d eq_refl).
  - exact (Hgo "1"%char 1 d eq_refl).
  - exact (Hgo "2"%char 2 d eq_refl).
  - exact (Hgo "3"%char 3 d eq_refl).
  - exact (Hgo "4"%char 4 d eq_refl).
  - exact (Hgo "5"%char 5 d eq_refl).
  - exact (Hgo "6"%char 6 d eq_refl).
  - exact (Hgo "7"%char 7 d eq_refl).
  - exact (Hgo "8"%char 8 d eq_refl).
  - exact (Hgo "9"%char 9 d eq_refl).
Qed.

Lemma pick_shown {A : Type} (items : list A) (index : nat) (x : A)
    (c : ascii) (rest : string) :
  nth_error items index = Some x ->
  is_digit c = false -> starts_with_x (String c rest) = false ->
  pick items (JS.decimal (index + 1)) = Some x
  /\ pick items (JS.decimal (index + 1) ++ String c rest) = Some x.
Proof.
  intros Hx Hc Hs.
  assert (Hlt : index < length items)
    by (apply nth_error_Some; congruence).
  split.
  - rewrite pick_decimal.
    destruct (Nat.leb_spec 1 (index + 1)),
      (Nat.leb_spec (index + 1) (length items)); try lia.
    cbn [andb]. replace (index + 1 - 1) with index by lia. exact Hx.
  - rewrite pick_by_value, parseInt_numeral_then by assumption.
    destruct (Z.leb_spec 1 (Z.of_nat (index + 1))),
      (Z.leb_spec (Z.of_nat (index + 1)) (Z.of_nat (length items))); try lia.
    cbn [andb]. replace (Z.to_nat (Z.of_nat (index + 1) - 1)) with index by lia.
    exact Hx.
Qed.

(** X14. The number printed in front of an entry selects that entry.  For
    the entry at [index] of the list shown, the answer [index + 1] picks
    it, and so does that number followed by any text that does not start
    with a digit or an "x": the whole line as printed,
    "{index + 1}. {key} - {name}", picks the entry it shows. *)
Theorem shown_number_selects_entry :
  (forall (A : Type) (items : list A) (index : nat) (x : A)
          (c : ascii) (rest : string),
      nth_error items index = Some x ->
      is_digit c = false -> starts_with_x (String c rest) = false ->
      pick items (JS.decimal (index + 1)) = Some x
      /\ pick items (JS.decimal (index + 1) ++ String c rest) = Some x)
  /\ (forall (projects : list Project.t) (index : nat) (project : Project.t),
        nth_error projects index = Some project ->
        pick projects (project_line index project) = Some project)
  /\ (forall (issues : list Issue.t) (index : nat) (issue : Issue.t),
        nth_error issues index = Some issue ->
        pick issues (issue_line index issue) = Some issue).
Proof.
  split; [exact @pick_shown|]. split; intros l index x Hx.
  - unfold project_line. cbn [append].
    now apply (pick_shown l index x "."%char).
  - unfold issue_line. cbn [append].
    now apply (pick_shown l index x "."%char).
Qed.

(* ================================================================== *)
(** ** Further properties: entering credentials *)

Lemma check_then_boolean (w : World) :
  (isValid <- checkCredentials ;; if isValid then ret true else ret false) w
  = checkCredentials w
  /\ (isValid <- checkCredentials ;;
      if negb isValid then ret false else ret true) w
     = checkCredentials w.
Proof.
  unfold bind. destruct (checkCredentials w) as [[[|]|e] w']; now split.
Qed.

Lemma trimmed_blank (s : string) :
  negb (JS.truthy (Some (JS.trim s))) = all_space s.
Proof.
  rewrite <- trim_empty. unfold JS.truthy. now rewrite negb_involutive.
Qed.

Lemma enterCredentialsManually_run (w : World) :
  enterCredentialsManually w =
  if all_space (answers (lines_read w))
     || all_space (answers (S (lines_read w)))
  then (Ret false, answered (answered w))
  else checkCredentials
         {| session :=
              {| email := JS.trim (answers (lines_read w));
                 apiToken := JS.trim (answers (S (lines_read w)));
                 baseURL :=
                   generateBaseURLFromEmail (JS.trim (answers (lines_read w))) |};
            requests := requests w;
            lines_read := S (S (lines_read w)) |}.
Proof.
  unfold enterCredentialsManually. unfold bind at 1, question at 1.
  unfold bind at 1, question at 1.
  cbn [lines_read session requests]. rewrite !trimmed_blank.
  destruct (all_space _ || all_space _); [reflexivity|].
  unfold bind at 1. cbn [setCredentials session requests lines_read].
  apply check_then_boolean.
Qed.

Lemma useEnvCredentials_run (w : World) :
  useEnvCredentials w =
  if JS.truthy JIRA_EMAIL && JS.truthy JIRA_API_TOKEN
  then checkCredentials
         {| session :=
              {| email := JS.str JIRA_EMAIL;
                 apiToken := JS.str JIRA_API_TOKEN;
                 baseURL := generateBaseURLFromEmail (JS.str JIRA_EMAIL) |};
            requests := requests w;
            lines_read := lines_read w |}
  else (Ret false, w).
Proof.
  unfold useEnvCredentials. cbv zeta.
  destruct (JS.truthy JIRA_EMAIL && JS.truthy JIRA_API_TOKEN); [|reflexivity].
  unfold bind at 1. cbn [setCredentials]. apply check_then_boolean.
Qed.

(** X15. Manual entry reads two answers.  When the email or the token
    holds only white space it stores nothing, requests nothing and
    returns [false].  Otherwise it stores both without the white space
    around them, together with the URL derived from the email, and then
    is whatever [checkCredentials] is in that world: the credentials stay
    stored also when the check fails or throws.  [useEnvCredentials]
    does the same with the two environment values as they are, and does
    nothing when either is missing or empty. *)
Theorem credentials_stored_before_check (w : World) :
  let jiraEmail := answers (lines_read w) in
  let jiraToken := answers (S (lines_read w)) in
  let entered :=
    {| session := {| email := JS.trim jiraEmail;
                     apiToken := JS.trim jiraToken;
                     baseURL := generateBaseURLFromEmail (JS.trim jiraEmail) |};
       requests := requests w;
       lines_read := S (S (lines_read w)) |} in
  let loaded :=
    {| session := {| email := JS.str JIRA_EMAIL;
                     apiToken := JS.str JIRA_API_TOKEN;
                     baseURL := generateBaseURLFromEmail (JS.str JIRA_EMAIL) |};
       requests := requests w;
       lines_read := lines_read w |} in
  (all_space jiraEmail || all_space jiraToken = true ->
     enterCredentialsManually w = (Ret false, answered (answered w)))
  /\ (all_space jiraEmail || all_space jiraToken = false ->
        enterCredentialsManually w = checkCredentials entered
        /\ session (snd (enterCredentialsManually w)) = session entered)
  /\ (JS.truthy JIRA_EMAIL && JS.truthy JIRA_API_TOKEN = false ->
        useEnvCredentials w = (Ret false, w))
  /\ (JS.truthy JIRA_EMAIL && JS.truthy JIRA_API_TOKEN = true ->
        useEnvCredentials w = checkCredentials loaded
        /\ session (snd (useEnvCredentials w)) = session loaded).
Proof.
  cbv zeta. rewrite enterCredentialsManually_run, useEnvCredentials_run.
  split; [|split; [|split]]; intro H; rewrite H; try reflexivity;
    (split; [reflexivity|apply keeps_checkCredentials]).
Qed.

(* ================================================================== *)
(** ** Further properties: every request is authenticated *)

Lemma from_session_authenticated (s : Session) (c : Config) :
  from_session s c ->
  email s <> "" -> apiToken s <> "" ->
  baseURL s = generateBaseURLFromEmail (email s) ->
  authenticated c.
Proof.
  intros [path [options ->]] He Ht Hb.
  assert (Hfields : auth_username (request_for s path options) = email s
                    /\ auth_password (request_for s path options) = apiToken s
                    /\ url (request_for s path options)
                       = baseURL s ++ "/rest/api/3" ++ path).
  { unfold request_for. destruct options as [[[| | |]|] [body|]];
      repeat split. }
  destruct Hfields as [H1 [H2 H3]]. unfold authenticated.
  rewrite H1, H2, H3, Hb. repeat split; auto. now exists path.
Qed.

Lemma emits_safe {A : Type} (m : M A) (w : World) :
  emits from_session m -> has_credentials w -> safe w ->
  safe (snd (m w)) /\ has_credentials (snd (m w)).
Proof.
  intros Hm [He Ht] [Hb Hreq]. destruct (Hm w) as [Hs [l [Hr Hl]]].
  unfold safe, has_credentials. rewrite Hs, Hr.
  repeat split; auto. apply Forall_app. split; [exact Hreq|].
  eapply Forall_impl; [|exact Hl].
  intros c Hc. now apply (from_session_authenticated (session w)).
Qed.

Lemma anything_checkCredentials : emits from_session checkCredentials.
Proof.
  eapply emits_weaken; [apply read_is_from_session|].
  apply reads_checkCredentials.
Qed.

Lemma anything_mainMenu_pass : emits from_session mainMenu_pass.
Proof.
  assert (Hread : forall A (m : M A),
             emits read_from_session m -> emits from_session m)
    by (intros A m; apply emits_weaken, read_is_from_session).
  pose proof (Hread _ _ reads_selectProject) as Hp.
  pose proof (Hread _ _ reads_selectIssueFromProject) as Hs.
  assert (Hd : forall k, emits from_session (displayIssue k))
    by (intro k; apply Hread, reads_displayIssue).
  assert (Hg : forall v, emits from_session (getProject v)).
  { intro v. apply Hread. now destruct reads_api as [_ [_ [H _]]]. }
  assert (Hc : forall k s d t, emits from_session (createIssue k s d t)).
  { intros k s d t. unfold createIssue. cbv zeta. emitting. }
  assert (Hx : forall v, emits from_session (deleteIssue v)).
  { intro v. unfold deleteIssue. emitting. }
  unfold mainMenu_pass, selectAndDisplayIssue, createNewIssue,
    deleteSelectedIssue.
  emitting; apply emits_data.
Qed.

Lemma stored_credentials_safe (e t : string) (w : World) :
  e <> "" -> t <> "" -> Forall authenticated (requests w) ->
  forall n,
    let w0 := {| session := {| email := e; apiToken := t;
                               baseURL := generateBaseURLFromEmail e |};
                 requests := requests w; lines_read := n |} in
    safe (snd (checkCredentials w0))
    /\ has_credentials (snd (checkCredentials w0)).
Proof.
  intros He Ht Hreq n w0.
  apply emits_safe; [apply anything_checkCredentials|now split|now split].
Qed.

Lemma setupMenu_pass_run (w : World) :
  setupMenu_pass w =
  if JS.trim (answers (lines_read w)) =? "1" then
    useEnvCredentials (answered w)
  else if JS.trim (answers (lines_read w)) =? "2" then
    match enterCredentialsManually (answered w) with
    | (Ret success, w') =>
        (Ret (success && JS.truthy (Some (email (session w')))
              && JS.truthy (Some (apiToken (session w')))), w')
    | (Throw e, w') => (Throw e, w')
    end
  else (Ret false, answered w).
Proof.
  unfold setupMenu_pass. unfold bind at 1, question at 1. cbv zeta.
  fold (answered w).
  destruct (JS.trim (answers (lines_read w)) =? "1").
  - unfold bind, ret.
    now destruct (useEnvCredentials (answered w)) as [[b|e] w'].
  - destruct (JS.trim (answers (lines_read w)) =? "2"); [|reflexivity].
    unfold bind, get_session, ret.
    now destruct (enterCredentialsManually (answered w)) as [[b|e] w'].
Qed.

Lemma setupMenu_pass_safe (w : World) :
  safe w ->
  safe (snd (setupMenu_pass w))
  /\ (fst (setupMenu_pass w) = Ret true ->
      has_credentials (snd (setupMenu_pass w))).
Proof.
  intros [Hb Hreq].
  assert (Hstay : safe (answered w)) by now split.
  rewrite setupMenu_pass_run.
  destruct (JS.trim (answers (lines_read w)) =? "1").
  - rewrite useEnvCredentials_run.
    destruct (JS.truthy JIRA_EMAIL) eqn:He;
      [destruct (JS.truthy JIRA_API_TOKEN) eqn:Ht|]; cbn [andb];
      try (split; [exact Hstay|discriminate]).
    assert (He' : JS.str JIRA_EMAIL <> "").
    { destruct JIRA_EMAIL; [now apply truthy_Some_iff|discriminate He]. }
    assert (Ht' : JS.str JIRA_API_TOKEN <> "").
    { destruct JIRA_API_TOKEN; [now apply truthy_Some_iff|discriminate Ht]. }
    destruct (stored_credentials_safe _ _ (answered w) He' Ht' Hreq
                (lines_read (answered w))) as [H1 H2].
    split; [exact H1|intros _; exact H2].
  - destruct (JS.trim (answers (lines_read w)) =? "2");
      [|split; [exact Hstay|discriminate]].
    rewrite enterCredentialsManually_run.
    destruct (all_space _ || all_space _) eqn:Hblank.
    + cbn [andb fst snd]. split; [now split|discriminate].
    + apply orb_false_elim in Hblank. destruct Hblank as [H1 H2].
      assert (He : JS.trim (answers (lines_read (answered w))) <> "").
      { intro H. rewrite <- trim_empty in H1. rewrite H in H1.
        discriminate H1. }
      assert (Ht : JS.trim (answers (S (lines_read (answered w)))) <> "").
      { intro H. rewrite <- trim_empty in H2. rewrite H in H2.
        discriminate H2. }
      destruct (stored_credentials_safe _ _ (answered w) He Ht Hreq
                  (S (S (lines_read (answered w))))) as [H3 H4].
      cbv zeta in H3, H4.
      destruct (checkCredentials _) as [[b|err] w'];
        cbn [fst snd] in *; split; auto.
Qed.

(** X16. [main] never sends a request without credentials, and never to
    a site other than the one derived from the email it authenticates
    with: in every state [main] reaches, each request made so far carries
    an email and a token that are not empty, and its URL is the base URL
    derived from that email followed by "/rest/api/3" and a path.  The
    main menu is reached only with both credentials set. *)
Theorem every_request_is_authenticated (st : Phase * World) :
  reachable st ->
  Forall authenticated (requests (snd st))
  /\ (fst st = InMainMenu -> has_credentials (snd st)).
Proof.
  intro H.
  assert (Hinv : safe (snd st)
                 /\ (fst st = InMainMenu -> has_credentials (snd st))).
  { induction H as [|[phase w] _ [Hsafe Hmain]].
    - split; [split; [reflexivity|constructor]|discriminate].
    - cbn [fst snd] in *. destruct phase; cbn [step].
      + destruct (setupMenu_pass_safe w Hsafe) as [H1 H2].
        destruct (setupMenu_pass w) as [[[|]|e] w']; cbn [fst snd] in *;
          split; auto; discriminate.
      + destruct (emits_safe mainMenu_pass w anything_mainMenu_pass
                    (Hmain eq_refl) Hsafe) as [H1 H2].
        destruct (mainMenu_pass w) as [[[|]|e] w']; cbn [fst snd] in *;
          split; auto; discriminate.
      + split; [exact Hsafe|discriminate].
      + split; [exact Hsafe|discriminate]. }
  destruct Hinv as [[_ Hreq] Hmain]. now split.
Qed.

(* ================================================================== *)
(** ** Further properties: what a passed check means *)

Lemma checkCredentials_true (w w' : World) :
  checkCredentials w = (Ret true, w') ->
  let c1 := request_for (session w) "/myself" no_options in
  let c2 := request_for (session w) "/project" no_options in
  has_credentials w
  /\ (exists u, axios (requests w) c1 = Resolved u)
  /\ (exists d, axios (requests w ++ [c1]) c2 = Resolved d
                /\ d <> DNull /\ d <> DProjects [])
  /\ w' = sent (sent w c1) c2.
Proof.
  intros H c1 c2. unfold checkCredentials, bind, get_session in H.
  destruct (JS.truthy (Some (email (session w)))) eqn:He;
    [|discriminate H].
  destruct (JS.truthy (Some (apiToken (session w)))) eqn:Ht;
    [|discriminate H].
  cbn [negb orb] in H. unfold getCurrentUser in H.
  rewrite makeJiraRequest_run in H. cbv zeta in H. fold c1 in H.
  change (method c1) with GET in H. cbv iota in H.
  destruct (axios (requests w) c1) as [u|e] eqn:H1;
    cbn [success negb] in H; [|discriminate H].
  unfold getProjectsList in H. rewrite makeJiraRequest_run in H.
  cbv zeta in H. cbn [sent session requests] in H. fold c2 in H.
  change (method c2) with GET in H. cbv iota in H.
  destruct (axios (requests w ++ [c1]) c2) as [d|e] eqn:H2;
    [|discriminate H].
  apply truthy_Some_iff in He. apply truthy_Some_iff in Ht.
  destruct d as [|[|p ps]| |]; try discriminate H;
    injection H as <-;
    (split; [now split|]); (split; [now exists u|]);
    (split; [|reflexivity]); eexists; (split; [reflexivity|]);
    split; discriminate.
Qed.

(** X17. The setup menu lets the user through only after a check that
    passed: when one pass of the menu returns, the choice was "1" or "2"
    (white space around it ignored), both credentials are set, and the
    last two requests are the GET of "/myself" and the GET of "/project"
    made with those credentials, both resolved, the second with a body
    that is neither [null] nor an empty array. *)
Theorem setup_succeeds_only_after_check (w w' : World) :
  setupMenu_pass w = (Ret true, w') ->
  let c1 := request_for (session w') "/myself" no_options in
  let c2 := request_for (session w') "/project" no_options in
  (JS.trim (answers (lines_read w)) = "1"
   \/ JS.trim (answers (lines_read w)) = "2")
  /\ has_credentials w'
  /\ requests w' = (requests w ++ [c1; c2])%list
  /\ (exists u, axios (requests w) c1 = Resolved u)
  /\ (exists d, axios (requests w ++ [c1]) c2 = Resolved d
                /\ d <> DNull /\ d <> DProjects []).
Proof.
  intros H c1 c2. rewrite setupMenu_pass_run in H.
  assert (Hcheck : forall w0,
             requests w0 = requests w ->
             checkCredentials w0 = (Ret true, w') ->
             has_credentials w'
             /\ requests w' = (requests w ++ [c1; c2])%list
             /\ (exists u, axios (requests w) c1 = Resolved u)
             /\ (exists d, axios (requests w ++ [c1]) c2 = Resolved d
                           /\ d <> DNull /\ d <> DProjects [])).
  { intros w0 Hreq Hc.
    assert (Hs : session w' = session w0).
    { pose proof (keeps_checkCredentials w0) as Hk. now rewrite Hc in Hk. }
    destruct (checkCredentials_true w0 w' Hc) as [Hcred [Hu [Hd Hw]]].
    unfold c1, c2. rewrite Hs, <- Hreq.
    split; [|split; [|split; [exact Hu|exact Hd]]].
    - unfold has_credentials. now rewrite Hs.
    - rewrite Hw. cbn [sent requests]. now rewrite <- app_assoc. }
  destruct (String.eqb_spec (JS.trim (answers (lines_read w))) "1") as [E1|N1].
  - split; [now left|].
    rewrite useEnvCredentials_run in H.
    destruct (JS.truthy JIRA_EMAIL && JS.truthy JIRA_API_TOKEN);
      [|discriminate H].
    eapply Hcheck; [|exact H]. reflexivity.
  - destruct (String.eqb_spec (JS.trim (answers (lines_read w))) "2")
      as [E2|N2]; [|discriminate H].
    split; [now right|].
    rewrite enterCredentialsManually_run in H.
    destruct (all_space _ || all_space _); [discriminate H|].
    destruct (checkCredentials _) as [[[|]|e] w''] eqn:Hc;
      try discriminate H.
    assert (w'' = w') by now injection H. subst w''.
    eapply Hcheck; [|exact Hc]. reflexivity.
Qed.

(* ================================================================== *)
(** ** Further properties: what the base URL depends on *)

Lemma split_local_part (p r : string) :
  JS.includes "@" p = false ->
  JS.includes "@" (p ++ String "@" r) = true
  /\ hd_error (JS.split "@" (p ++ String "@" r)) = Some p.
Proof.
  induction p as [|c p' IH]; intro H.
  - now split.
  - cbn [JS.includes] in H. apply orb_false_elim in H. destruct H as [Hc Hp].
    destruct (IH Hp) as [H1 H2].
    cbn [append JS.includes JS.split]. rewrite Hc, H1. split; [reflexivity|].
    destruct (JS.split "@" (p' ++ String "@" r)) as [|q qs];
      [discriminate H2|].
    cbn [hd_error] in *. now injection H2 as ->.
Qed.

Lemma includes_split_at (c : ascii) (s : string) :
  JS.includes c s = true ->
  exists p r, s = p ++ String c r /\ JS.includes c p = false.
Proof.
  induction s as [|d s' IH]; [discriminate|].
  cbn [JS.includes]. destruct (Ascii.eqb_spec d c) as [->|Hne].
  - intros _. now exists "", s'.
  - cbn [orb]. intro H. destruct (IH H) as [p [r [-> Hp]]].
    exists (String d p), r. split; [reflexivity|].
    cbn [JS.includes]. rewrite Hp.
    now destruct (Ascii.eqb_spec d c).
Qed.

(** X18. Only the part of the email before its first '@' reaches the base
    URL: two emails with the same local part give the same URL, whatever
    follows the '@'.  The URL is empty exactly for an email without '@',
    and then every request goes to a URL that starts with "/rest/api/3",
    with no host; an email that starts with '@' gives
    "https://.atlassian.net". *)
Theorem generateBaseURLFromEmail_local_part :
  (forall p r : string,
      JS.includes "@" p = false ->
      generateBaseURLFromEmail (p ++ String "@" r)
      = "https://" ++ p ++ ".atlassian.net")
  /\ (forall e : string,
        generateBaseURLFromEmail e = "" <-> JS.includes "@" e = false)
  /\ (forall e : string,
        JS.includes "@" e = true ->
        exists p r, e = p ++ String "@" r /\ JS.includes "@" p = false
                    /\ generateBaseURLFromEmail e
                       = "https://" ++ p ++ ".atlassian.net")
  /\ (forall r : string,
        generateBaseURLFromEmail (String "@" r) = "https://.atlassian.net")
  /\ (forall (e t path : string) (options : Options) (w : World),
        JS.includes "@" e = false ->
        url (request_for (session (snd (setCredentials e t w))) path options)
        = "/rest/api/3" ++ path).
Proof.
  assert (H1 : forall p r : string,
             JS.includes "@" p = false ->
             generateBaseURLFromEmail (p ++ String "@" r)
             = "https://" ++ p ++ ".atlassian.net").
  { intros p r Hp. destruct (split_local_part p r Hp) as [Hi Hs].
    unfold generateBaseURLFromEmail. rewrite Hi.
    assert (Ht : JS.truthy (Some (p ++ String "@" r)) = true)
      by now destruct p.
    rewrite Ht. cbn [negb orb].
    destruct (JS.split "@" (p ++ String "@" r)) as [|q qs];
      [discriminate Hs|].
    cbn [hd_error] in Hs. injection Hs as ->. reflexivity. }
  assert (H2 : forall e, JS.includes "@" e = false ->
                         generateBaseURLFromEmail e = "").
  { intros e He. unfold generateBaseURLFromEmail. rewrite He.
    now rewrite orb_true_r. }
  split; [exact H1|]. split; [|split; [|split]].
  - intro e. split; [|apply H2].
    intro H. destruct (JS.includes "@" e) eqn:He; [|reflexivity].
    destruct (includes_split_at _ _ He) as [p [r [-> Hp]]].
    rewrite (H1 p r Hp) in H. discriminate H.
  - intros e He. destruct (includes_split_at _ _ He) as [p [r [-> Hp]]].
    exists p, r. repeat split; auto.
  - intro r. exact (H1 "" r eq_refl).
  - intros e t path options w He. cbn [setCredentials snd session].
    unfold request_for.
    destruct options as [[[| | |]|] [body|]]; cbn [url baseURL];
      now rewrite (H2 e He).
Qed.

End Client.

(* ================================================================== *)
(** ** The theorems at work on the sample site *)

Lemma makeJiraRequest_failure_precedence_witness :
  makeJiraRequest (failing_axios error_with_both) "/myself" no_options
    initial_world
  = (Ret (Failure "A"),
     sent initial_world
       (request_for (session initial_world) "/myself" no_options)).
Proof.
  exact (proj1 (makeJiraRequest_failure_precedence
                  (failing_axios error_with_both))
           "/myself" no_options initial_world error_with_both eq_refl).
Defined.

Lemma formatJiraError_skips_empty_first_message_witness :
  rule_errorMessages error_with_empty_first = None
  /\ formatJiraError error_with_empty_first = "B".
Proof.
  exact (formatJiraError_skips_empty_first_message error_with_empty_first
           {| status := 400;
              data := Some {| errorMessages := Some [""];
                              errors := Some [("x", "B")] |} |}
           {| errorMessages := Some [""]; errors := Some [("x", "B")] |}
           [""] eq_refl eq_refl eq_refl (or_intror eq_refl)).
Defined.

Lemma createIssue_stops_when_project_check_fails_witness :
  createIssue (failing_axios error_not_found)
    (Some "BTS") (Some "Login fails") None None initial_world
  = (Ret (Failure "Project 'BTS' not found or you don't have access to it. Resource not found. Please check the issue key or project key."),
     sent initial_world
       (request_for (session initial_world) "/project/BTS" no_options)).
Proof.
  apply (createIssue_stops_when_project_check_fails
           (failing_axios error_not_found) "BTS" "Login fails" None None
           initial_world).
  - discriminate.
  - discriminate.
  - reflexivity.
Defined.

Lemma getIssuesList_request_witness :
  requests (snd (getIssuesList sample_axios (Some "BTS") None alice_world))
  = [ {| url := "https://alice.atlassian.net/rest/api/3/search?jql=project%20%3D%20BTS%20ORDER%20BY%20created%20ASC&maxResults=50";
         method := GET;
         auth_username := "alice@co";
         auth_password := "tok";
         headers := [("Accept", "application/json")];
         config_data := None |} ].
Proof.
  apply (proj1 (getIssuesList_request sample_axios) "BTS" None alice_world).
  reflexivity.
Defined.

Lemma selection_by_number_witness :
  selectProject sample_axios (answers_of ["2"]) initial_world
  = (Ret (nth_error three_projects 1),
     answered (sent initial_world
                 (request_for (session initial_world) "/project" no_options))).
Proof.
  apply (proj1 (proj2 (selection_by_number sample_axios (answers_of ["2"])))
           initial_world three_projects).
  - discriminate.
  - reflexivity.
Defined.

(** C3 as the specification words it fails: "2abc" is no numeral, yet
    [parseInt] reads 2 from it and the second project is selected. *)
Lemma selection_accepts_numeral_with_trailing_text :
  numeric "2abc" = false
  /\ selectProject sample_axios (answers_of ["2abc"]) initial_world
     = (Ret (nth_error three_projects 1),
        answered (sent initial_world
                    (request_for (session initial_world) "/project"
                       no_options)))
  /\ ~ (forall (items : list Project.t) (choice : string),
          numeric choice = false -> pick items choice = None).
Proof.
  split; [reflexivity|]. split; [reflexivity|].
  intro H. specialize (H three_projects "2abc" eq_refl). discriminate H.
Qed.

Lemma deleteSelectedIssue_confirmation_witness :
  let answers := answers_of ["1"; "1"; "YES"] in
  let w1 := snd (selectIssueFromProject sample_axios answers alice_world) in
  exists (r : Result) (w2 : World),
    deleteIssue sample_axios (Some "BTS-1") (answered w1) = (Ret r, w2)
    /\ deleteSelectedIssue sample_axios answers alice_world = (Ret tt, w2)
    /\ ("BTS-1" <> "" ->
        requests w2
        = (requests w1
           ++ [request_for (session w1) "/issue/BTS-1"
                 {| opt_method := Some DELETE; opt_body := None |}])%list).
Proof.
  intros answers w1.
  apply (proj1 (proj2 (deleteSelectedIssue_confirmation sample_axios answers
                         alice_world w1
                         {| Issue.key := "BTS-1";
                            Issue.summary := "Login fails" |}
                         eq_refl))).
  reflexivity.
Defined.

Lemma checkCredentials_cases_witness :
  exists (b : bool) (w' : World),
    checkCredentials sample_axios alice_world = (Ret b, w')
    /\ (b = false <->
        no_credentials alice_world
        \/ user_call_fails sample_axios alice_world
        \/ projects_call_fails sample_axios alice_world
        \/ no_projects sample_axios alice_world)
    /\ (no_credentials alice_world -> w' = alice_world)
    /\ (user_call_fails sample_axios alice_world ->
        w' = sent alice_world
               (request_for (session alice_world) "/myself" no_options)).
Proof.
  apply (checkCredentials_cases sample_axios alice_world).
  intros u w1 w2 H1 H2.
  injection H1 as _ <-. discriminate H2.
Defined.

Lemma session_baseURL_invariant_witness :
  let st := step sample_axios (answers_of ["2"; "alice@co"; "tok"]) None None
              (InSetupMenu, initial_world) in
  session_invariant (snd st)
  /\ baseURL (session (snd st)) = "https://alice.atlassian.net".
Proof.
  intro st. split; [|reflexivity].
  apply (proj1 (proj2 (session_baseURL_invariant sample_axios
                         (answers_of ["2"; "alice@co"; "tok"]) None None))).
  apply reachable_step, reachable_start.
Defined.

(* ================================================================== *)
(** ** The further properties at work on the sample site *)

Lemma setup_crashes_on_null_body_witness :
  step null_project_axios setup_answers None None (InSetupMenu, initial_world)
  = (Crashed,
     {| session := {| email := "alice@co"; apiToken := "tok";
                      baseURL := "https://alice.atlassian.net" |};
        requests :=
          requests
            (snd (step null_project_axios setup_answers None None
                    (InSetupMenu, initial_world)));
        lines_read := 3 |}).
Proof.
  pose proof (setup_crashes_on_null_body null_project_axios setup_answers
                None None initial_world DObject) as H.
  cbv zeta in H.
  destruct H as [_ H];
    [reflexivity | discriminate | discriminate | reflexivity | reflexivity |].
  rewrite H. reflexivity.
Defined.

Lemma browsing_only_reads_witness :
  let c := request_for (session alice_world) "/myself" no_options in
  method c = GET /\ config_data c = None
  /\ headers c = [("Accept", "application/json")]
  /\ auth_username c = "alice@co" /\ auth_password c = "tok"
  /\ exists path, url c = "https://alice.atlassian.net" ++ "/rest/api/3" ++ path.
Proof.
  intro c.
  apply (proj2 (proj2 (proj2 (proj2 (proj2
           (browsing_only_reads sample_axios setup_answers)))))
           (session alice_world) c).
  now exists "/myself".
Defined.

Lemma selection_is_listed_witness :
  exists projects,
    sample_axios [] (request_for (session initial_world) "/project" no_options)
    = Resolved (DProjects projects)
    /\ In {| Project.key := "OPS"; Project.name := "Operations" |} projects
    /\ snd (selectProject sample_axios (answers_of ["2"]) initial_world)
       = answered
           (sent initial_world
              (request_for (session initial_world) "/project" no_options)).
Proof.
  apply (proj1 (selection_is_listed sample_axios (answers_of ["2"]))
           initial_world).
  reflexivity.
Defined.

Lemma getProject_getIssue_trimmed_path_witness :
  exists pre k post,
    "  BTS-1 " = pre ++ k ++ post
    /\ all_space pre = true /\ all_space post = true
    /\ k <> "" /\ starts_clean k = true /\ ends_clean k = true
    /\ snd (getProject sample_axios (Some "  BTS-1 ") alice_world)
       = sent alice_world
           (request_for (session alice_world) ("/project/" ++ k) no_options)
    /\ snd (getIssue sample_axios (Some "  BTS-1 ") alice_world)
       = sent alice_world
           (request_for (session alice_world) ("/issue/" ++ k) no_options).
Proof.
  apply (getProject_getIssue_trimmed_path sample_axios "  BTS-1 " alice_world).
  reflexivity.
Defined.

Lemma formatDescriptionForJira_cases_witness :
  exists s t pre post,
    Some "  Steps to reproduce " = Some s
    /\ s = pre ++ t ++ post
    /\ all_space pre = true /\ all_space post = true
    /\ t <> "" /\ starts_clean t = true /\ ends_clean t = true
    /\ JS.trim t = t
    /\ {| doc_type := "doc"; version := 1;
          content :=
            [ {| par_type := "paragraph";
                 par_content :=
                   [ {| text_type := "text";
                        text := "Steps to reproduce" |} ] |} ] |}
       = {| doc_type := "doc"; version := 1;
            content :=
              [ {| par_type := "paragraph";
                   par_content :=
                     [ {| text_type := "text"; text := t |} ] |} ] |}.
Proof.
  apply (proj2 (formatDescriptionForJira_cases
                  (Some "  Steps to reproduce "))).
  reflexivity.
Defined.

Lemma createIssue_creates_after_check_witness :
  map url
    (requests
       (snd (createIssue sample_axios (Some " BTS ") (Some "Login fails")
               (Some "  ") None alice_world)))
  = [ "https://alice.atlassian.net/rest/api/3/project/BTS";
      "https://alice.atlassian.net/rest/api/3/issue" ]
  /\ map config_data
       (requests
          (snd (createIssue sample_axios (Some " BTS ") (Some "Login fails")
                  (Some "  ") None alice_world)))
     = [ None;
         Some {| fields := {| project_key := " BTS ";
                              summary := "Login fails";
                              issuetype_name := "Task";
                              description := None |} |} ].
Proof.
  pose proof (createIssue_creates_after_check sample_axios " BTS "
                "Login fails" (Some "  ") None alice_world DObject) as H.
  cbv zeta in H.
  destruct H as [H _]; [reflexivity | discriminate | reflexivity |].
  rewrite H. split; reflexivity.
Defined.

Lemma createNewIssue_requires_summary_witness :
  let answers := answers_of ["1"; "   "; "ignored"] in
  createNewIssue sample_axios answers alice_world
  = (Ret tt,
     answered (answered (snd (selectProject sample_axios answers alice_world)))).
Proof.
  intro answers.
  apply (proj1 (createNewIssue_requires_summary sample_axios answers
                  alice_world
                  (snd (selectProject sample_axios answers alice_world))
                  {| Project.key := "BTS"; Project.name := "Bug Tracking" |}
                  eq_refl)).
  reflexivity.
Defined.

Lemma getIssuesList_query_is_escaped_witness :
  exists q n,
    snd (getIssuesList sample_axios (Some "A&B=C #1") None alice_world)
    = sent alice_world
        (request_for (session alice_world)
           ("/search?jql=" ++ q ++ "&maxResults=" ++ n) no_options)
    /\ all_chars url_safe q = true
    /\ all_chars is_digit n = true
    /\ n <> ""
    /\ (forall c, In c ["&"; "="; "?"; "#"; "/"; "+"; " "]%char ->
                  url_safe c = false).
Proof.
  apply (getIssuesList_query_is_escaped sample_axios "A&B=C #1" None
           alice_world).
  reflexivity.
Defined.

Lemma formatJiraError_empty_witness :
  rule_errorMessages error_with_empty_body = None
  /\ exists b es,
       body_of error_with_empty_body = Some b /\ errors b = Some es
       /\ (map snd es = [] \/ map snd es = [""]).
Proof.
  apply (proj1 (proj1 (formatJiraError_empty error_with_empty_body))).
  reflexivity.
Defined.

Lemma shown_number_selects_entry_witness :
  project_line 1 {| Project.key := "OPS"; Project.name := "Operations" |}
  = "2. OPS - Operations"
  /\ pick three_projects "2. OPS - Operations"
     = Some {| Project.key := "OPS"; Project.name := "Operations" |}.
Proof.
  split; [reflexivity|].
  apply (proj1 (proj2 shown_number_selects_entry) three_projects 1).
  reflexivity.
Defined.

Lemma credentials_stored_before_check_witness :
  let answers := answers_of ["  bob@x "; " tok "] in
  fst (enterCredentialsManually (failing_axios error_not_found) answers
         initial_world) = Ret false
  /\ session (snd (enterCredentialsManually (failing_axios error_not_found)
                     answers initial_world))
     = {| email := "bob@x"; apiToken := "tok";
          baseURL := "https://bob.atlassian.net" |}.
Proof.
  intro answers.
  pose proof (credentials_stored_before_check (failing_axios error_not_found)
                answers None None initial_world) as H.
  cbv zeta in H. destruct H as [_ [H _]].
  destruct (H eq_refl) as [H1 H2]. split; [|exact H2].
  rewrite H1. reflexivity.
Defined.

Lemma every_request_is_authenticated_witness :
  let st := step sample_axios setup_answers None None
              (InSetupMenu, initial_world) in
  fst st = InMainMenu
  /\ length (requests (snd st)) = 2
  /\ Forall authenticated (requests (snd st))
  /\ (fst st = InMainMenu -> has_credentials (snd st)).
Proof.
  intro st. split; [reflexivity|]. split; [reflexivity|].
  apply (every_request_is_authenticated sample_axios setup_answers None None).
  apply reachable_step, reachable_start.
Defined.

Lemma setup_succeeds_only_after_check_witness :
  let w' := snd (setupMenu_pass sample_axios setup_answers None None
                   initial_world) in
  (JS.trim (setup_answers 0) = "1" \/ JS.trim (setup_answers 0) = "2")
  /\ has_credentials w'
  /\ map url (requests w')
     = [ "https://alice.atlassian.net/rest/api/3/myself";
         "https://alice.atlassian.net/rest/api/3/project" ].
Proof.
  intro w'.
  pose proof (setup_succeeds_only_after_check sample_axios setup_answers
                None None initial_world w' eq_refl) as H.
  cbv zeta in H. destruct H as [H1 [H2 [H3 _]]].
  split; [exact H1|]. split; [exact H2|]. rewrite H3. reflexivity.
Defined.

Lemma generateBaseURLFromEmail_local_part_witness :
  generateBaseURLFromEmail "alice@example.org" = "https://alice.atlassian.net"
  /\ generateBaseURLFromEmail "alice@co" = "https://alice.atlassian.net".
Proof.
  split.
  - apply (proj1 generateBaseURLFromEmail_local_part "alice" "example.org").
    reflexivity.
  - apply (proj1 generateBaseURLFromEmail_local_part "alice" "co").
    reflexivity.
Defined.

(** C7 as the specification words it fails: with both credentials set,
    the user call resolved and the project call resolved with a [null]
    body, none of the four failure cases holds, yet [checkCredentials]
    returns neither success nor failure: reading [data.length] throws. *)
Lemma checkCredentials_throws_instead_of_returning :
  ~ no_credentials alice_world
  /\ (exists u w1, getCurrentUser null_project_axios alice_world
                   = (Ret (Success u), w1)
                   /\ exists w2, getProjectsList null_project_axios w1
                                 = (Ret (Success DNull), w2))
  /\ ~ (exists (b : bool) (w' : World),
          checkCredentials null_project_axios alice_world = (Ret b, w'))
  /\ exists (e : Error) (w' : World),
       checkCredentials null_project_axios alice_world = (Throw e, w').
Proof.
  split; [intros [H|H]; discriminate H|].
  split.
  { exists DObject, (snd (getCurrentUser null_project_axios alice_world)).
    split; [reflexivity|].
    exists (snd (checkCredentials null_project_axios alice_world)).
    reflexivity. }
  split; [intros [b [w' H]]; discriminate H|].
  exists (TypeError "Cannot read properties of null"),
         (snd (checkCredentials null_project_axios alice_world)).
  reflexivity.
Qed.
